(** * vat_checker: reliability check of a Czech VAT number (DIC)

    A shallow embedding of [src/vat_checker.py].  Python [str] values are
    sequences of Unicode code points, [bytes] values sequences of octets, the
    result [dict] is a finite map from its string keys, and the two external
    calls ([requests.post] and [ET.fromstring]) are oracles of an
    environment, each answering with a value or with the exception it
    raises; what the program does with them (the two [try]/[except] blocks,
    the diagnostics on [stderr]) is written out in a small
    exception-and-trace monad. *)

From Stdlib Require Import String Ascii List ZArith NArith Bool Lia.
From stdpp Require Import gmap strings list.
Import ListNotations.

Local Open Scope N_scope.

(** ** Python strings *)

(** A [str] is a sequence of code points. *)
Definition pystr := list N.

(** A literal of the source, which are all ASCII. *)
Definition lit (s : string) : pystr :=
  map N_of_ascii (list_ascii_of_string s).

(** The double quote and the line feed, which occur in the envelope. *)
Definition dq : pystr := [34].
Definition nl : pystr := [10].

Definition pystr_eqb (a b : pystr) : bool := bool_decide (a = b).


(** ** The Unicode character database

    [re]'s class [\d], [str.strip] and [str.upper] consult the tables of the
    running interpreter's Unicode database, which is no part of this
    repository.  The program is therefore modelled over any database; the
    two facts on decimal digits that the request builder relies on are
    carried with it. *)

Class UnicodeData := {
  (** [Py_UNICODE_ISDECIMAL]: the characters [\d] matches in a [str] pattern. *)
  uni_isdecimal : N -> bool;
  (** [Py_UNICODE_ISSPACE]: the characters [str.strip()] removes. *)
  uni_isspace : N -> bool;
  (** The full upper-case mapping of one character, as [str.upper] applies it
      (one character may become several). *)
  uni_toupper_full : N -> list N;
  (** In the ASCII range the decimal digits are '0'..'9'. *)
  isdecimal_ascii :
    forall c, c < 128 -> uni_isdecimal c = (48 <=? c) && (c <=? 57);
  (** A decimal digit is an assigned character: no surrogate, no
      non-character, inside the code space. *)
  isdecimal_assigned :
    forall c, uni_isdecimal c = true ->
              c < 55296 \/ (57344 <= c /\ c < 65534) \/ (65536 <= c /\ c <= 1114111)
}.

(** ** Regular expressions, as far as the source uses them *)

Section Normalizer.
Context `{UnicodeData}.

(** The pattern [\D]: one character that [\d] does not match. *)
Definition category_not_digit (c : N) : bool := negb (uni_isdecimal c).

(** [re.sub(pattern, repl, s)] for a pattern that is one character class:
    scanning from the left, every character the class matches is replaced
    by [repl], every other one is copied. *)
Fixpoint re_sub (cls : N -> bool) (repl s : pystr) : pystr :=
  match s with
  | [] => []
  | c :: s' => if cls c then repl ++ re_sub cls repl s'
               else c :: re_sub cls repl s'
  end.

(** Stage 1 of [check_vat_reliability]: [re.sub(r"\D", "", vat_input)]. *)
Definition normalize (vat_input : pystr) : pystr :=
  re_sub category_not_digit [] vat_input.

(** [str.strip()] and [str.upper()]. *)
Fixpoint lstrip (s : pystr) : pystr :=
  match s with
  | [] => []
  | c :: s' => if uni_isspace c then lstrip s' else s
  end.

Definition rstrip (s : pystr) : pystr := rev (lstrip (rev s)).

Definition strip (s : pystr) : pystr := rstrip (lstrip s).

Definition upper (s : pystr) : pystr := flat_map uni_toupper_full s.

End Normalizer.

(** The digits '0'..'9'. *)
Definition ascii_digit (c : N) : bool := (48 <=? c) && (c <=? 57).

(** ** The request builder *)

Definition SERVICE_URL : pystr :=
  lit "https://adisrws.mfcr.cz/dpr/axis2/services/rozhraniCRPDPH."
  ++ lit "rozhraniCRPDPHSOAP".
Definition SOAP_ACTION : pystr := lit "getStatusNespolehlivyPlatce".

(** The dictionary [NS], read at its two keys. *)
Definition NS_soap : pystr := lit "http://schemas.xmlsoap.org/soap/envelope/".
Definition NS_crp : pystr := lit "http://adis.mfcr.cz/rozhraniCRPDPH/".
Definition NS : list (pystr * pystr) :=
  [(lit "soap", NS_soap); (lit "crp", NS_crp)].

(** The f-string of [_build_soap_envelope], line by line. *)
Definition _build_soap_envelope (vat_number : pystr) : pystr :=
  lit "<?xml version=" ++ dq ++ lit "1.0" ++ dq
    ++ lit " encoding=" ++ dq ++ lit "UTF-8" ++ dq ++ lit "?>" ++ nl
  ++ lit "<soapenv:Envelope xmlns:soapenv=" ++ dq ++ NS_soap ++ dq ++ lit ">" ++ nl
  ++ lit "  <soapenv:Body>" ++ nl
  ++ lit "    <StatusNespolehlivyPlatceRequest xmlns=" ++ dq ++ NS_crp ++ dq
    ++ lit ">" ++ nl
  ++ lit "      <dic>" ++ vat_number ++ lit "</dic>" ++ nl
  ++ lit "    </StatusNespolehlivyPlatceRequest>" ++ nl
  ++ lit "  </soapenv:Body>" ++ nl
  ++ lit "</soapenv:Envelope>".

(** ** Bytes and the UTF-8 codec *)

Definition bytes := list Byte.byte.

Definition octet (n : N) : Byte.byte := default Byte.x00 (Byte.of_N n).

(** Python exceptions the program can meet, with what they carry. *)
Inductive PyExc :=
| RequestException (msg : pystr)   (* connection error, timeout, ... *)
| HTTPError (status_code : Z)      (* from [raise_for_status] *)
| UnicodeEncodeError (c : N)       (* from [str.encode] *)
| ParseError (msg : pystr)         (* [xml.etree.ElementTree.ParseError] *)
| OtherException (name msg : pystr).

(** The two classes named in the [except] clauses of the source. *)
Inductive ExcClass := Exception_ | ET_ParseError.

Definition isinstance (e : PyExc) (k : ExcClass) : bool :=
  match k, e with
  | Exception_, _ => true
  | ET_ParseError, ParseError _ => true
  | ET_ParseError, _ => false
  end.
Arguments isinstance : simpl never.

(** One code point in UTF-8; a surrogate is not encodable. *)
Definition utf8_char (c : N) : PyExc + bytes :=
  if c <? 128 then inr [octet c]
  else if c <? 2048 then
    inr [octet (N.lor 192 (N.shiftr c 6)); octet (N.lor 128 (N.land c 63))]
  else if c <? 65536 then
    if (55296 <=? c) && (c <=? 57343) then inl (UnicodeEncodeError c)
    else inr [octet (N.lor 224 (N.shiftr c 12));
              octet (N.lor 128 (N.land (N.shiftr c 6) 63));
              octet (N.lor 128 (N.land c 63))]
  else if c <=? 1114111 then
    inr [octet (N.lor 240 (N.shiftr c 18));
         octet (N.lor 128 (N.land (N.shiftr c 12) 63));
         octet (N.lor 128 (N.land (N.shiftr c 6) 63));
         octet (N.lor 128 (N.land c 63))]
  else inl (UnicodeEncodeError c).

(** [s.encode("utf-8")]. *)
Fixpoint str_encode_utf8 (s : pystr) : PyExc + bytes :=
  match s with
  | [] => inr []
  | c :: s' =>
      match utf8_char c with
      | inl e => inl e
      | inr b => match str_encode_utf8 s' with
                 | inl e => inl e
                 | inr bs => inr (b ++ bs)
                 end
      end
  end.

(** The code points UTF-8 has a form for. *)
Definition encodable (c : N) : bool :=
  (c <? 55296) || ((57344 <=? c) && (c <=? 1114111)).

(** ** ElementTree elements and the one path expression of the source *)

(** An [Element]: its tag in Clark notation, its attribute dictionary and its
    children in document order.  ([text] and [tail] are never read.) *)
#[warnings="-register-all"]
Inductive Element :=
  mkElement (tag : pystr) (attrib : list (pystr * pystr)) (children : list Element).

Definition tag (e : Element) : pystr := let (t, _, _) := e in t.
Definition attrib (e : Element) : list (pystr * pystr) := let (_, a, _) := e in a.
Definition children (e : Element) : list Element := let (_, _, c) := e in c.

(** [dict.get(key)] on an attribute dictionary kept in document order. *)
Fixpoint dict_get (key : pystr) (d : list (pystr * pystr)) : option pystr :=
  match d with
  | [] => None
  | (k, v) :: d' => if pystr_eqb k key then Some v else dict_get key d'
  end.

(** [Element.iter()]: the element, then its descendants, in document order. *)
Fixpoint iter (e : Element) : list Element :=
  match e with
  | mkElement _ _ cs => e :: flat_map iter cs
  end.

(** The step [.//]: [iter] without the context element itself. *)
Definition descendants (e : Element) : list Element := flat_map iter (children e).

(** [crp:statusPlatceDPH] with the prefix resolved through [NS]. *)
Definition status_tag : pystr :=
  lit "{" ++ NS_crp ++ lit "}" ++ lit "statusPlatceDPH".

(** The predicate [[@dic='value']]: [elem.get(key) == value]. *)
Definition matches_status (vat_number : pystr) (e : Element) : bool :=
  pystr_eqb (tag e) status_tag
  && bool_decide (dict_get (lit "dic") (attrib e) = Some vat_number).

(** [root.find(".//crp:statusPlatceDPH[@dic='...']", NS)]: the first match. *)
Definition find_status (root : Element) (vat_number : pystr) : option Element :=
  List.find (matches_status vat_number) (descendants root).

(** ** Effects: exceptions and the trace of what the process did *)

Inductive event :=
| Posted (url : pystr) (data : bytes) (headers : list (pystr * pystr)) (timeout : Z)
| PrintedStderr (text : pystr) (exc : PyExc).  (* the text, then [str(exc)] *)

Inductive outcome (A : Type) :=
| Returned (a : A)
| Raised (e : PyExc).
Arguments Returned {A} a.
Arguments Raised {A} e.

Definition M (A : Type) : Type := outcome A * list event.

Definition ret {A} (a : A) : M A := (Returned a, []).
Definition raise {A} (e : PyExc) : M A := (Raised e, []).
Definition emit (ev : event) : M unit := (Returned tt, [ev]).

Definition bind {A B} (m : M A) (k : A -> M B) : M B :=
  match m with
  | (Returned a, t) => let (o, t') := k a in (o, t ++ t')
  | (Raised e, t) => (Raised e, t)
  end.

(** [try: m  except k as exc: h exc]. *)
Definition try_except {A} (m : M A) (k : ExcClass) (h : PyExc -> M A) : M A :=
  match m with
  | (Raised e, t) =>
      if isinstance e k then let (o, t') := h e in (o, t ++ t') else (Raised e, t)
  | _ => m
  end.

Definition lift {A} (r : PyExc + A) : M A :=
  match r with inl e => raise e | inr a => ret a end.

Notation "x <- m ;; k" := (bind m (fun x => k))
  (at level 100, m at next level, right associativity).
Notation "m >> k" := (bind m (fun _ => k))
  (at level 100, right associativity).

(** ** The service caller *)

Record Response := {
  status_code : Z;
  content : bytes
}.

(** What the network and the XML parser answer. *)
Record Env := {
  requests_post :
    pystr -> bytes -> list (pystr * pystr) -> Z -> PyExc + Response;
  (** [ET.fromstring]: the root, or the exception it raises.  For a text
      that is no XML this is [ParseError]; CPython's parser raises others
      as well, so [ValueError] for a document that declares a multi-byte
      encoding and [LookupError] for one that declares an unknown one. *)
  ET_fromstring : bytes -> PyExc + Element
}.

(** [Response.raise_for_status()] of [requests]: client and server errors. *)
Definition raise_for_status (resp : Response) : M unit :=
  if (400 <=? status_code resp)%Z && (status_code resp <? 600)%Z
  then raise (HTTPError (status_code resp))
  else ret tt.

(** The values of the result dictionary. *)
Inductive pyval := VStr (s : pystr) | VBool (b : bool).

(** The dictionary with the five keys of the source. *)
Definition CheckResult (status reliable_vat_payer message : pystr)
    (auto_checked : bool) (vat_number_clean : pystr) : gmap string pyval :=
  <["vat_number_clean" := VStr vat_number_clean]>
  (<["auto_checked" := VBool auto_checked]>
  (<["message" := VStr message]>
  (<["reliable_vat_payer" := VStr reliable_vat_payer]>
  (<["status" := VStr status]> ∅)))).

(** The dictionary [headers] of [_call_service]. *)
Definition request_headers : list (pystr * pystr) :=
  [(lit "Content-Type", lit "text/xml; charset=utf-8"); (lit "SOAPAction", SOAP_ACTION)].

Section Service.
Context `{UnicodeData} (env : Env).

Definition post (url : pystr) (data : bytes) (headers : list (pystr * pystr))
    (timeout : Z) : M Response :=
  emit (Posted url data headers timeout) >>
  lift (requests_post env url data headers timeout).

Definition fromstring (b : bytes) : M Element :=
  lift (ET_fromstring env b).

(** The two [try] blocks; a handler's [return None] is the [None] that ends
    the function. *)
Definition _call_service (vat_number : pystr) : M (option Element) :=
  let headers := request_headers in
  let payload := _build_soap_envelope vat_number in
  r <- try_except
         (data <- lift (str_encode_utf8 payload) ;;
          resp <- post SERVICE_URL data headers 30 ;;
          raise_for_status resp >>
          ret (Some resp))
         Exception_
         (fun exc =>
            emit (PrintedStderr (lit "Error contacting service: ") exc) >>
            ret None) ;;
  match r with
  | None => ret None
  | Some resp =>
      try_except
        (root <- fromstring (content resp) ;;
         ret (Some root))
        ET_ParseError
        (fun exc =>
           emit (PrintedStderr (lit "Error parsing XML response: ") exc) >>
           ret None)
  end.

(** ** The response interpreter *)

Definition _interpret_status (status : pystr) : pystr * pystr :=
  if pystr_eqb status (lit "ANO") then (lit "Unreliable", lit "false")
  else if pystr_eqb status (lit "NE") then (lit "Reliable", lit "true")
  else (lit "Not found", lit "NA").

(** The dictionary literal [result] starts from. *)
Definition initial_result : gmap string pyval :=
  CheckResult (lit "error") (lit "true") [] true [].

Definition check_vat_reliability (vat_input : pystr) : M (gmap string pyval) :=
  let result := initial_result in
  let vat_number := normalize vat_input in
  let result := <["vat_number_clean" := VStr vat_number]> result in
  match vat_number with
  | [] =>
      let result :=
        <["message" := VStr (lit "Invalid VAT number - no digits found")]> result in
      let result := <["auto_checked" := VBool false]> result in
      ret result
  | _ :: _ =>
      root <- _call_service vat_number ;;
      match root with
      | None =>
          let result :=
            <["message" :=
                VStr (lit "Error: could not get response from VAT service")]> result in
          let result := <["auto_checked" := VBool false]> result in
          ret result
      | Some root =>
          match find_status root vat_number with
          | None =>
              let result := <["status" := VStr (lit "not_found")]> result in
              let result := <["reliable_vat_payer" := VStr (lit "NA")]> result in
              let result :=
                <["message" := VStr (lit "VAT payer not found in registry")]> result in
              ret result
          | Some element =>
              let nsp :=
                upper (strip (default [] (dict_get (lit "nespolehlivyPlatce")
                                                   (attrib element)))) in
              let '(status_text, reliable_value) := _interpret_status nsp in
              let result := <["status" := VStr (lit "success")]> result in
              let result := <["reliable_vat_payer" := VStr reliable_value]> result in
              let result :=
                <["message" := VStr (lit "VAT Tax payer status: " ++ status_text)]> result in
              ret result
          end
      end
  end.

End Service.

(** ** What a run can be

    The causes of a failed call with the trace each leaves, and the ways
    through [check_vat_reliability]; the properties below are stated with
    them. *)

Section Outcomes.
Context `{UnicodeData} (env : Env).

(** Why a call gives no document. *)
Inductive call_fails (vat_number : pystr) : list event -> Prop :=
| fails_encoding e :
    str_encode_utf8 (_build_soap_envelope vat_number) = inl e ->
    call_fails vat_number
      [PrintedStderr (lit "Error contacting service: ") e]
| fails_transport data e :
    str_encode_utf8 (_build_soap_envelope vat_number) = inr data ->
    requests_post env SERVICE_URL data request_headers 30 = inl e ->
    call_fails vat_number
      [Posted SERVICE_URL data request_headers 30;
       PrintedStderr (lit "Error contacting service: ") e]
| fails_status data resp :
    str_encode_utf8 (_build_soap_envelope vat_number) = inr data ->
    requests_post env SERVICE_URL data request_headers 30 = inr resp ->
    (400 <= status_code resp < 600)%Z ->
    call_fails vat_number
      [Posted SERVICE_URL data request_headers 30;
       PrintedStderr (lit "Error contacting service: ") (HTTPError (status_code resp))]
| fails_parsing data resp e :
    str_encode_utf8 (_build_soap_envelope vat_number) = inr data ->
    requests_post env SERVICE_URL data request_headers 30 = inr resp ->
    ~ (400 <= status_code resp < 600)%Z ->
    ET_fromstring env (content resp) = inl e ->
    isinstance e ET_ParseError = true ->
    call_fails vat_number
      [Posted SERVICE_URL data request_headers 30;
       PrintedStderr (lit "Error parsing XML response: ") e].

(** When a call ends in the exception [e]: the parser raised it, and it is
    no [ParseError]. *)
Definition call_raises (vat_number : pystr) (e : PyExc) (t : list event) : Prop :=
  exists data resp,
    str_encode_utf8 (_build_soap_envelope vat_number) = inr data /\
    requests_post env SERVICE_URL data request_headers 30 = inr resp /\
    ~ (400 <= status_code resp < 600)%Z /\
    ET_fromstring env (content resp) = inl e /\
    isinstance e ET_ParseError = false /\
    t = [Posted SERVICE_URL data request_headers 30].

(** A parser that keeps to [ParseError]. *)
Definition parser_contract : Prop :=
  forall b e, ET_fromstring env b = inl e -> isinstance e ET_ParseError = true.

(** When a call gives the document [root]. *)
Definition call_succeeds (vat_number : pystr) (root : Element) (t : list event) : Prop :=
  exists data resp,
    str_encode_utf8 (_build_soap_envelope vat_number) = inr data /\
    requests_post env SERVICE_URL data request_headers 30 = inr resp /\
    ~ (400 <= status_code resp < 600)%Z /\
    ET_fromstring env (content resp) = inr root /\
    t = [Posted SERVICE_URL data request_headers 30].

(** The attribute the interpreter reads, normalized. *)
Definition reliability_code (element : Element) : pystr :=
  upper (strip (default [] (dict_get (lit "nespolehlivyPlatce") (attrib element)))).

(** The ways through [check_vat_reliability]. *)
Inductive check_path (vat_input : pystr) : M (gmap string pyval) -> Prop :=
| path_invalid_input :
    normalize vat_input = [] ->
    check_path vat_input
      (Returned (CheckResult (lit "error") (lit "true")
                   (lit "Invalid VAT number - no digits found") false []),
       [])
| path_service_failure t :
    normalize vat_input <> [] ->
    _call_service env (normalize vat_input) = (Returned None, t) ->
    check_path vat_input
      (Returned (CheckResult (lit "error") (lit "true")
                   (lit "Error: could not get response from VAT service") false
                   (normalize vat_input)),
       t)
| path_not_found root t :
    normalize vat_input <> [] ->
    _call_service env (normalize vat_input) = (Returned (Some root), t) ->
    find_status root (normalize vat_input) = None ->
    check_path vat_input
      (Returned (CheckResult (lit "not_found") (lit "NA")
                   (lit "VAT payer not found in registry") true
                   (normalize vat_input)),
       t)
| path_found root t element :
    normalize vat_input <> [] ->
    _call_service env (normalize vat_input) = (Returned (Some root), t) ->
    find_status root (normalize vat_input) = Some element ->
    check_path vat_input
      (Returned (CheckResult (lit "success")
                   (snd (_interpret_status (reliability_code element)))
                   (lit "VAT Tax payer status: "
                    ++ fst (_interpret_status (reliability_code element)))
                   true (normalize vat_input)),
       t)
| path_exception e t :
    normalize vat_input <> [] ->
    _call_service env (normalize vat_input) = (Raised e, t) ->
    check_path vat_input (Raised e, t).

End Outcomes.

(** ** The invariant of the data model *)

(** The invariant of the data model, as the specification words it. *)
Definition stated_invariant (r : gmap string pyval) : Prop :=
  (r !! "auto_checked" = Some (VBool false) ->
   r !! "status" = Some (VStr (lit "error")))
  /\ (r !! "status" = Some (VStr (lit "not_found")) ->
      r !! "reliable_vat_payer" = Some (VStr (lit "NA")))
  /\ (r !! "reliable_vat_payer" = Some (VStr (lit "true"))
      \/ r !! "reliable_vat_payer" = Some (VStr (lit "false")) ->
      r !! "status" = Some (VStr (lit "success"))).

(** The invariant the program keeps: the default ["true"] also stays in an
    error record. *)
Definition kept_invariant `{UnicodeData} (env : Env) (vat_input : pystr)
    (r : gmap string pyval) : Prop :=
  (r !! "auto_checked" = Some (VBool false) ->
   r !! "status" = Some (VStr (lit "error"))
   /\ (normalize vat_input = []
       \/ exists t, call_fails env (normalize vat_input) t))
  /\ (r !! "status" = Some (VStr (lit "not_found")) ->
      r !! "reliable_vat_payer" = Some (VStr (lit "NA")))
  /\ (r !! "reliable_vat_payer" = Some (VStr (lit "false")) ->
      r !! "status" = Some (VStr (lit "success")))
  /\ (r !! "reliable_vat_payer" = Some (VStr (lit "true")) ->
      r !! "status" = Some (VStr (lit "success"))
      \/ (r !! "status" = Some (VStr (lit "error"))
          /\ r !! "auto_checked" = Some (VBool false))).

(** A complete record: the five keys, each with a value of its kind. *)
Definition complete_record (r : gmap string pyval) : Prop :=
  dom r = ({["status"; "reliable_vat_payer"; "message"; "auto_checked";
             "vat_number_clean"]} : gset string)
  /\ (exists s, r !! "status" = Some (VStr s)
                /\ In s [lit "success"; lit "not_found"; lit "error"])
  /\ (exists v, r !! "reliable_vat_payer" = Some (VStr v)
                /\ In v [lit "true"; lit "false"; lit "NA"])
  /\ (exists m, r !! "message" = Some (VStr m))
  /\ (exists b, r !! "auto_checked" = Some (VBool b))
  /\ (exists c, r !! "vat_number_clean" = Some (VStr c)).

(** ** Well-formed XML

    The productions of XML 1.0 that the request uses: the declaration, white
    space, names, attributes with quoted values, elements with start and end
    tag, character data.  (References, CDATA sections, comments, processing
    instructions and empty-element tags do not occur in it.)  Every text
    these rules derive is a well-formed document. *)

#[warnings="-register-all"]
Inductive xml_node :=
| XElement (name : pystr) (attrs : list (pystr * pystr)) (content : list xml_node)
| XText (chars : pystr).

(** [S]: space, tab, line feed, carriage return. *)
Definition xml_space (c : N) : bool :=
  (c =? 32) || (c =? 9) || (c =? 10) || (c =? 13).

(** [Char]. *)
Definition xml_char (c : N) : bool :=
  (c =? 9) || (c =? 10) || (c =? 13)
  || ((32 <=? c) && (c <=? 55295))
  || ((57344 <=? c) && (c <=? 65533))
  || ((65536 <=? c) && (c <=? 1114111)).

(** [NameStartChar] and [NameChar], in the ASCII range. *)
Definition name_start_char (c : N) : bool :=
  (c =? 58) || (c =? 95) || ((65 <=? c) && (c <=? 90)) || ((97 <=? c) && (c <=? 122)).

Definition name_char (c : N) : bool :=
  name_start_char c || (c =? 45) || (c =? 46) || ((48 <=? c) && (c <=? 57)).

Definition xml_name (n : pystr) : bool :=
  match n with
  | [] => false
  | c :: n' => name_start_char c && forallb name_char n'
  end.

(** [EncName]. *)
Definition enc_name (n : pystr) : bool :=
  match n with
  | [] => false
  | c :: n' =>
      (((65 <=? c) && (c <=? 90)) || ((97 <=? c) && (c <=? 122)))
      && forallb (fun c => ((65 <=? c) && (c <=? 90)) || ((97 <=? c) && (c <=? 122))
                           || ((48 <=? c) && (c <=? 57))
                           || (c =? 46) || (c =? 95) || (c =? 45)) n'
  end.

(** The text between the quotes of an [AttValue] without references. *)
Definition att_value (v : pystr) : bool :=
  forallb (fun c => xml_char c && negb (c =? 60) && negb (c =? 38) && negb (c =? 34)) v.

(** [CharData]: no '<', no '&', and the sequence "]]>" nowhere. *)
Fixpoint has_cdata_end (t : pystr) : bool :=
  match t with
  | [] => false
  | a :: t' =>
      match t' with
      | b :: c :: _ => (a =? 93) && (b =? 93) && (c =? 62)
      | _ => false
      end || has_cdata_end t'
  end.

Definition char_data (t : pystr) : bool :=
  forallb (fun c => xml_char c && negb (c =? 60) && negb (c =? 38)) t
  && negb (has_cdata_end t).

(** [(S Attribute)*]. *)
Inductive wf_attributes : pystr -> list (pystr * pystr) -> Prop :=
| wf_attributes_nil : wf_attributes [] []
| wf_attributes_cons sp n v rest attrs :
    sp <> [] -> forallb xml_space sp = true ->
    xml_name n = true -> att_value v = true ->
    wf_attributes rest attrs ->
    wf_attributes (sp ++ n ++ lit "=" ++ dq ++ v ++ dq ++ rest) ((n, v) :: attrs).

(** [element ::= STag content ETag], with the constraints that the two tags
    carry the same name and that no attribute name occurs twice. *)
Inductive wf_element : pystr -> xml_node -> Prop :=
| wf_element_tags n atxt attrs body kids :
    xml_name n = true ->
    wf_attributes atxt attrs -> NoDup (map fst attrs) ->
    wf_content body kids ->
    wf_element (lit "<" ++ n ++ atxt ++ lit ">" ++ body ++ lit "</" ++ n ++ lit ">")
               (XElement n attrs kids)
with wf_content : pystr -> list xml_node -> Prop :=
| wf_content_nil : wf_content [] []
| wf_content_text t rest kids :
    char_data t = true -> wf_content rest kids ->
    wf_content (t ++ rest) (XText t :: kids)
| wf_content_element s e rest kids :
    wf_element s e -> wf_content rest kids ->
    wf_content (s ++ rest) (e :: kids).

(** [document ::= XMLDecl Misc* element Misc*], the declaration giving
    version 1.0 and an encoding. *)
Inductive wf_document : pystr -> pystr -> xml_node -> Prop :=
| wf_document_intro enc m1 s root m2 :
    enc_name enc = true ->
    forallb xml_space m1 = true -> wf_element s root ->
    forallb xml_space m2 = true ->
    wf_document (lit "<?xml version=" ++ dq ++ lit "1.0" ++ dq
                 ++ lit " encoding=" ++ dq ++ enc ++ dq ++ lit "?>"
                 ++ m1 ++ s ++ m2)
                enc root.

(** *** Namespaces

    A name is resolved against the declarations in scope, [xmlns] for
    unprefixed element names and [xmlns:p] for the prefix [p]; the result is
    written in Clark notation, as ElementTree does. *)

Fixpoint split_colon (n : pystr) : option (pystr * pystr) :=
  match n with
  | [] => None
  | c :: n' =>
      if c =? 58 then Some ([], n')
      else match split_colon n' with
           | Some (p, l) => Some (c :: p, l)
           | None => None
           end
  end.

(** The scope after an element's own declarations: prefix (empty for the
    default namespace) to URI, innermost first. *)
Fixpoint declare (attrs : list (pystr * pystr)) (scope : list (pystr * pystr))
    : list (pystr * pystr) :=
  match attrs with
  | [] => scope
  | (k, v) :: attrs' =>
      let scope' := declare attrs' scope in
      if pystr_eqb k (lit "xmlns") then ([], v) :: scope'
      else match split_colon k with
           | Some (p, l) => if pystr_eqb p (lit "xmlns") then (l, v) :: scope' else scope'
           | None => scope'
           end
  end.

Definition clark (uri local : pystr) : pystr := lit "{" ++ uri ++ lit "}" ++ local.

Definition resolve_tag (scope : list (pystr * pystr)) (n : pystr) : option pystr :=
  match split_colon n with
  | Some (p, l) => option_map (fun uri => clark uri l) (dict_get p scope)
  | None => Some (match dict_get [] scope with
                  | Some uri => clark uri n
                  | None => n
                  end)
  end.

(** The child elements and the text of a node. *)
Definition child_elements (kids : list xml_node) : list xml_node :=
  List.filter (fun k => match k with XElement _ _ _ => true | XText _ => false end) kids.

Fixpoint text_content (kids : list xml_node) : pystr :=
  match kids with
  | [] => []
  | XText t :: kids' => t ++ text_content kids'
  | XElement _ _ _ :: kids' => text_content kids'
  end.

(** The shape of the request: [Envelope] and [Body] of the SOAP namespace
    around one request element of the service's namespace, whose only child
    element [dic] has no child element and the text [d]. *)
Definition request_shape (root : xml_node) (d : pystr) : Prop :=
  exists a0 k0 a1 k1 a2 k2 a3 k3,
    root = XElement (lit "soapenv:Envelope") a0 k0 /\
    resolve_tag (declare a0 []) (lit "soapenv:Envelope")
      = Some (clark NS_soap (lit "Envelope")) /\
    child_elements k0 = [XElement (lit "soapenv:Body") a1 k1] /\
    resolve_tag (declare a1 (declare a0 [])) (lit "soapenv:Body")
      = Some (clark NS_soap (lit "Body")) /\
    child_elements k1 = [XElement (lit "StatusNespolehlivyPlatceRequest") a2 k2] /\
    resolve_tag (declare a2 (declare a1 (declare a0 [])))
                (lit "StatusNespolehlivyPlatceRequest")
      = Some (clark NS_crp (lit "StatusNespolehlivyPlatceRequest")) /\
    child_elements k2 = [XElement (lit "dic") a3 k3] /\
    resolve_tag (declare a3 (declare a2 (declare a1 (declare a0 [])))) (lit "dic")
      = Some (clark NS_crp (lit "dic")) /\
    child_elements k3 = [] /\
    text_content k3 = d.

(** The document [_build_soap_envelope d] is. *)
Definition envelope_tree (d : pystr) : xml_node :=
  XElement (lit "soapenv:Envelope") [(lit "xmlns:soapenv", NS_soap)]
    [XText (nl ++ lit "  ");
     XElement (lit "soapenv:Body") []
       [XText (nl ++ lit "    ");
        XElement (lit "StatusNespolehlivyPlatceRequest") [(lit "xmlns", NS_crp)]
          [XText (nl ++ lit "      ");
           XElement (lit "dic") [] [XText d];
           XText (nl ++ lit "    ")];
        XText (nl ++ lit "  ")];
     XText nl].

(** ** A database and an environment to run the program on *)

(** The digits, spaces and case pairs of Basic Latin and Latin-1, with the
    Arabic-Indic and the fullwidth digits and the spaces beyond Latin-1; a
    character outside of these is no digit, no space and its own upper case. *)
Definition sample_isdecimal (c : N) : bool :=
  ((48 <=? c) && (c <=? 57))
  || ((1632 <=? c) && (c <=? 1641))
  || ((65296 <=? c) && (c <=? 65305)).

Definition sample_isspace (c : N) : bool :=
  ((9 <=? c) && (c <=? 13)) || ((28 <=? c) && (c <=? 32))
  || (c =? 133) || (c =? 160) || (c =? 5760)
  || ((8192 <=? c) && (c <=? 8202))
  || (c =? 8232) || (c =? 8233) || (c =? 8239) || (c =? 8287) || (c =? 12288).

Definition sample_toupper_full (c : N) : list N :=
  if (97 <=? c) && (c <=? 122) then [c - 32]
  else if c =? 181 then [924]
  else if c =? 223 then [83; 83]
  else if (224 <=? c) && (c <=? 254) && negb (c =? 247) then [c - 32]
  else if c =? 255 then [376]
  else [c].

Lemma sample_isdecimal_ascii c :
  c < 128 -> sample_isdecimal c = (48 <=? c) && (c <=? 57).
Proof.
  intros Hc. unfold sample_isdecimal.
  replace (1632 <=? c) with false by (symmetry; apply N.leb_gt; lia).
  replace (65296 <=? c) with false by (symmetry; apply N.leb_gt; lia).
  now rewrite !orb_false_r.
Qed.

Lemma sample_isdecimal_assigned c :
  sample_isdecimal c = true ->
  c < 55296 \/ (57344 <= c /\ c < 65534) \/ (65536 <= c /\ c <= 1114111).
Proof.
  unfold sample_isdecimal. rewrite !orb_true_iff, !andb_true_iff, !N.leb_le. lia.
Qed.

Definition sample_ucd : UnicodeData := {|
  uni_isdecimal := sample_isdecimal;
  uni_isspace := sample_isspace;
  uni_toupper_full := sample_toupper_full;
  isdecimal_ascii := sample_isdecimal_ascii;
  isdecimal_assigned := sample_isdecimal_assigned
|}.

(** A response of the registry for [dic], with the reliability code [nsp]. *)
Definition registry_answer (dic nsp : pystr) : Element :=
  mkElement (clark NS_soap (lit "Envelope")) []
    [mkElement (clark NS_soap (lit "Body")) []
       [mkElement (clark NS_crp (lit "StatusNespolehlivyPlatceResponse")) []
          [mkElement (clark NS_crp (lit "status")) [(lit "statusCode", lit "0")] [];
           mkElement status_tag
             [(lit "dic", dic); (lit "nespolehlivyPlatce", nsp)] []]]].

(** A service that answers every request with the same parsed document. *)
Definition answering (root : Element) : Env := {|
  requests_post := fun _ _ _ _ => inr {| status_code := 200; content := [] |};
  ET_fromstring := fun _ => inr root
|}.

(** The registry knows 25083062 as reliable. *)
Definition registry : Env := answering (registry_answer (lit "25083062") (lit "NE")).

(** A service that cannot be reached. *)
Definition unreachable : Env := {|
  requests_post := fun _ _ _ _ => inl (RequestException (lit "Connection refused"));
  ET_fromstring := fun _ => inl (ParseError (lit "no element found"))
|}.

(** A service whose answer is no XML. *)
Definition garbled : Env := {|
  requests_post := fun _ _ _ _ => inr {| status_code := 200; content := [] |};
  ET_fromstring := fun _ => inl (ParseError (lit "syntax error: line 1, column 0"))
|}.

(** A service whose answer declares an encoding the parser does not read:
    an empty element after a declaration with the encoding shift_jis, on
    which [ET.fromstring] raises [ValueError]. *)
Definition misencoded_body : bytes :=
  match str_encode_utf8
          (lit "<?xml version=" ++ dq ++ lit "1.0" ++ dq ++ lit " encoding=" ++ dq
           ++ lit "shift_jis" ++ dq ++ lit "?><a/>") with
  | inr b => b
  | inl _ => []
  end.

Definition misencoded : Env := {|
  requests_post := fun _ _ _ _ =>
    inr {| status_code := 200; content := misencoded_body |};
  ET_fromstring := fun b =>
    if bool_decide (map Byte.to_N b = map Byte.to_N misencoded_body)
    then inl (OtherException (lit "ValueError")
                (lit "multi-byte encodings are not supported"))
    else inl (ParseError (lit "syntax error: line 1, column 0"))
|}.

(** A service that answers with a server error. *)
Definition failing (code : Z) : Env := {|
  requests_post := fun _ _ _ _ => inr {| status_code := code; content := [] |};
  ET_fromstring := fun _ => inr (mkElement (lit "html") [] [])
|}.

(** Reading the result dictionary. *)
Definition result_of {A} (m : M A) : outcome A := fst m.
Definition trace_of {A} (m : M A) : list event := snd m.

(** ** The command line

    The block under [__main__], from the point where [argparse] has delivered
    the positional argument [args.vat]: the record is computed, and its JSON
    text printed on [stdout]. *)

(** The digit [format(k, "x")] writes for [k < 16]. *)
Definition hex_digit (k : N) : N := if k <? 10 then 48 + k else 87 + k.

(** [format(n, "04x")], for [n < 65536]. *)
Definition hex4 (n : N) : pystr :=
  [hex_digit (n / 4096 mod 16); hex_digit (n / 256 mod 16);
   hex_digit (n / 16 mod 16); hex_digit (n mod 16)].

(** One character in a JSON string with [ensure_ascii], the default of
    [json.dumps]: the quote and the backslash are escaped, the control
    characters with short forms have them, the other printable ASCII
    characters stand for themselves, and every other character is written
    [\uXXXX], beyond the basic plane as a surrogate pair. *)
Definition json_escape_char (c : N) : pystr :=
  if c =? 34 then 92 :: dq
  else if c =? 92 then [92; 92]
  else if c =? 8 then lit "\b"
  else if c =? 12 then lit "\f"
  else if c =? 10 then lit "\n"
  else if c =? 13 then lit "\r"
  else if c =? 9 then lit "\t"
  else if (32 <=? c) && (c <=? 126) then [c]
  else if c <? 65536 then lit "\u" ++ hex4 c
  else
    let n := c - 65536 in
    let s1 := N.lor 55296 (N.land (N.shiftr n 10) 1023) in
    let s2 := N.lor 56320 (N.land n 1023) in
    lit "\u" ++ hex4 s1 ++ lit "\u" ++ hex4 s2.

Definition json_string (s : pystr) : pystr :=
  dq ++ flat_map json_escape_char s ++ dq.

Definition json_value (v : pyval) : pystr :=
  match v with
  | VStr s => json_string s
  | VBool true => lit "true"
  | VBool false => lit "false"
  end.

(** [sep.join(l)]. *)
Fixpoint join (sep : pystr) (l : list pystr) : pystr :=
  match l with
  | [] => []
  | [x] => x
  | x :: l' => x ++ sep ++ join sep l'
  end.

(** The keys of [result] in the order of its dictionary literal, which is
    the order [json.dumps] writes them in (an assignment to a key that
    exists keeps its place). *)
Definition result_keys : list string :=
  ["status"; "reliable_vat_payer"; "message"; "auto_checked"; "vat_number_clean"].

Definition json_item (r : gmap string pyval) (k : string) : option pystr :=
  match r !! k with
  | Some v => Some (json_string (lit k) ++ lit ": " ++ json_value v)
  | None => None
  end.

(** [json.dumps(result)]. *)
Definition json_dumps (r : gmap string pyval) : pystr :=
  lit "{" ++ join (lit ", ") (omap (json_item r) result_keys) ++ lit "}".

(** What the process does: what [check_vat_reliability] did, and what is
    printed on [stdout]. *)
Inductive process_event :=
| Did (ev : event)
| PrintedStdout (text : pystr).

Definition is_stdout (ev : process_event) : bool :=
  match ev with PrintedStdout _ => true | Did _ => false end.

Definition is_posted (ev : event) : bool :=
  match ev with Posted _ _ _ _ => true | PrintedStderr _ _ => false end.

Definition is_stderr (ev : event) : bool :=
  match ev with PrintedStderr _ _ => true | Posted _ _ _ _ => false end.

(** Printable ASCII: the characters from the space to the tilde. *)
Definition printable (c : N) : bool := (32 <=? c) && (c <=? 126).

Section CommandLine.
Context `{UnicodeData} (env : Env).

(** [result = check_vat_reliability(args.vat); print(json.dumps(result))]:
    an exception of the first statement ends the process before the
    second. *)
Definition main (args_vat : pystr) : outcome unit * list process_event :=
  match check_vat_reliability env args_vat with
  | (Returned result, t) =>
      (Returned tt, map Did t ++ [PrintedStdout (json_dumps result)])
  | (Raised e, t) => (Raised e, map Did t)
  end.

End CommandLine.

(** The body of the request for [vat_number], when its text has a UTF-8
    form. *)
Definition payload_of (vat_number : pystr) : bytes :=
  match str_encode_utf8 (_build_soap_envelope vat_number) with
  | inr b => b
  | inl _ => []
  end.

(** A response with two status elements for the same [dic], the first
    unreliable, the second reliable. *)
Definition two_answers (dic : pystr) : Element :=
  mkElement (clark NS_soap (lit "Envelope")) []
    [mkElement (clark NS_soap (lit "Body")) []
       [mkElement status_tag [(lit "dic", dic); (lit "nespolehlivyPlatce", lit "ANO")] [];
        mkElement status_tag [(lit "dic", dic); (lit "nespolehlivyPlatce", lit "NE")] []]].

(** * Properties *)

(** ** Strings *)

Lemma pystr_eqb_eq a b : pystr_eqb a b = true <-> a = b.
Proof. unfold pystr_eqb. apply bool_decide_eq_true. Qed.

Lemma pystr_eqb_neq a b : pystr_eqb a b = false <-> a <> b.
Proof. unfold pystr_eqb. apply bool_decide_eq_false. Qed.

Lemma pystr_eqb_refl a : pystr_eqb a a = true.
Proof. now apply pystr_eqb_eq. Qed.

(** ** The input normalizer *)

Section NormalizerFacts.
Context `{UnicodeData}.

(** Substituting the empty string for a class keeps what is outside of it. *)
Lemma re_sub_empty cls s :
  re_sub cls [] s = List.filter (fun c => negb (cls c)) s.
Proof.
  induction s as [|c s IH]; simpl; [reflexivity|].
  destruct (cls c); simpl; now rewrite IH.
Qed.

Lemma normalize_filter x : normalize x = List.filter uni_isdecimal x.
Proof.
  unfold normalize. rewrite re_sub_empty. apply List.filter_ext.
  intros c. unfold category_not_digit. apply negb_involutive.
Qed.

Lemma normalize_digits x : forallb uni_isdecimal (normalize x) = true.
Proof.
  rewrite normalize_filter. apply forallb_forall.
  intros c Hc. now apply List.filter_In in Hc.
Qed.

Lemma filter_all {A} (p : A -> bool) l :
  forallb p l = true -> List.filter p l = l.
Proof.
  induction l as [|a l IH]; simpl; [reflexivity|].
  intros [Ha Hl]%andb_true_iff. rewrite Ha. now rewrite IH.
Qed.

Lemma normalize_fixed d : forallb uni_isdecimal d = true -> normalize d = d.
Proof. rewrite normalize_filter. apply filter_all. Qed.

Lemma normalize_idempotent x : normalize (normalize x) = normalize x.
Proof. apply normalize_fixed, normalize_digits. Qed.

(** The normalized string is empty exactly for an input without a digit. *)
Lemma normalize_nil x :
  normalize x = [] <-> forallb category_not_digit x = true.
Proof.
  rewrite normalize_filter. unfold category_not_digit.
  induction x as [|c x IH]; simpl; [tauto|].
  destruct (uni_isdecimal c); simpl; [|exact IH].
  split; discriminate.
Qed.

(** On an ASCII input the digits kept are '0'..'9'. *)
Lemma filter_ascii_digits x :
  (forall c, In c x -> c < 128) ->
  List.filter uni_isdecimal x = List.filter ascii_digit x.
Proof.
  intros Hx. induction x as [|c x IH]; simpl; [reflexivity|].
  rewrite (isdecimal_ascii c) by (apply Hx; now left).
  fold (ascii_digit c). rewrite IH; [reflexivity|].
  intros c' Hc'. apply Hx. now right.
Qed.

End NormalizerFacts.

(** ** Exceptions *)

(** A handler lets an exception of another class pass. *)
Lemma try_except_other_class {A} (e : PyExc) (k : ExcClass) (h : PyExc -> M A) :
  isinstance e k = false -> try_except (raise e) k h = raise e.
Proof. intros Hk. unfold try_except, raise. now rewrite Hk. Qed.

Lemma try_except_caught {A} (e : PyExc) (k : ExcClass) (h : PyExc -> M A) :
  isinstance e k = true -> try_except (raise e) k h = h e.
Proof.
  intros Hk. unfold try_except, raise. rewrite Hk. now destruct (h e).
Qed.

Lemma try_except_returned {A} (a : A) t (k : ExcClass) (h : PyExc -> M A) :
  try_except (Returned a, t) k h = (Returned a, t).
Proof. reflexivity. Qed.

(** ** The service caller *)

Section ServiceFacts.
Context `{UnicodeData} (env : Env).

Lemma raise_for_status_cases resp :
  ((400 <= status_code resp < 600)%Z
   /\ raise_for_status resp = raise (HTTPError (status_code resp)))
  \/ (~ (400 <= status_code resp < 600)%Z /\ raise_for_status resp = ret tt).
Proof.
  unfold raise_for_status.
  destruct (400 <=? status_code resp)%Z eqn:E1;
    destruct (status_code resp <? 600)%Z eqn:E2; simpl;
    try apply Z.leb_le in E1; try apply Z.leb_gt in E1;
    try apply Z.ltb_lt in E2; try apply Z.ltb_ge in E2;
    [left | right | right | right]; split; try reflexivity; lia.
Qed.

(** [_call_service] returns [None] with the failure's trace, or the root the
    parser gave, or it ends in the exception the parser raised. *)
Lemma _call_service_cases vat_number :
  (exists t, _call_service env vat_number = (Returned None, t)
             /\ call_fails env vat_number t)
  \/ (exists root t, _call_service env vat_number = (Returned (Some root), t)
                     /\ call_succeeds env vat_number root t)
  \/ (exists e t, _call_service env vat_number = (Raised e, t)
                  /\ call_raises env vat_number e t).
Proof.
  unfold _call_service, call_succeeds, call_raises.
  destruct (str_encode_utf8 (_build_soap_envelope vat_number)) as [e|data] eqn:Eenc;
    simpl.
  { left. eexists. split; [reflexivity|]. constructor; assumption. }
  unfold post. simpl.
  destruct (requests_post env SERVICE_URL data request_headers 30) as [e|resp] eqn:Epost.
  { left. eexists. split; [reflexivity|]. eapply fails_transport; eassumption. }
  simpl.
  destruct (raise_for_status_cases resp) as [[Hs ->]|[Hs ->]]; simpl.
  { left. eexists. split; [reflexivity|]. eapply fails_status; eassumption. }
  unfold fromstring.
  destruct (ET_fromstring env (content resp)) as [e|root] eqn:Eparse; simpl.
  - destruct (isinstance e ET_ParseError) eqn:Ecls; simpl.
    + left. eexists. split; [reflexivity|]. eapply fails_parsing; eassumption.
    + right; right. exists e. eexists. split; [reflexivity|].
      exists data, resp. repeat split; assumption || reflexivity.
  - right; left. exists root. eexists. split; [reflexivity|].
    exists data, resp. auto.
Qed.

(** With a parser that keeps to [ParseError], [_call_service] returns. *)
Lemma _call_service_returns vat_number :
  parser_contract env ->
  exists o t, _call_service env vat_number = (Returned o, t).
Proof.
  intros Hpc.
  destruct (_call_service_cases vat_number)
    as [(t & E & _)|[(root & t & E & _)|(e & t & E & Hr)]];
    rewrite E; eauto.
  destruct Hr as (data & resp & _ & _ & _ & Hx & Hcls & _).
  rewrite (Hpc _ _ Hx) in Hcls. discriminate.
Qed.

End ServiceFacts.

Section CheckFacts.
Context `{UnicodeData} (env : Env).

Lemma check_vat_reliability_path vat_input :
  check_path env vat_input (check_vat_reliability env vat_input).
Proof.
  unfold check_vat_reliability.
  destruct (normalize vat_input) as [|c v] eqn:En.
  { apply path_invalid_input. exact En. }
  destruct (_call_service env (c :: v)) as [[[root|]|e] t] eqn:Ecall; simpl.
  - destruct (find_status root (c :: v)) as [element|] eqn:Efind.
    + fold (reliability_code element).
      destruct (_interpret_status (reliability_code element)) as [st rv] eqn:Ei.
      simpl. rewrite app_nil_r.
      pose proof (path_found env vat_input root t element) as P.
      rewrite En, Ei in P. apply P; [discriminate|assumption|assumption].
    + simpl. rewrite app_nil_r.
      pose proof (path_not_found env vat_input root t) as P.
      rewrite En in P. apply P; [discriminate|assumption|assumption].
  - rewrite app_nil_r.
    pose proof (path_service_failure env vat_input t) as P.
    rewrite En in P. apply P; [discriminate|assumption].
  - pose proof (path_exception env vat_input e t) as P.
    rewrite En in P. apply P; [discriminate|assumption].
Qed.

(** With a parser that keeps to [ParseError], the run returns. *)
Lemma check_vat_reliability_returns vat_input :
  parser_contract env ->
  exists r t, check_vat_reliability env vat_input = (Returned r, t).
Proof.
  intros Hpc.
  destruct (check_vat_reliability_path vat_input)
    as [En|t En Ecall|root t En Ecall Ef|root t element En Ecall Ef|e t En Ecall];
    eauto.
  destruct (_call_service_returns env (normalize vat_input) Hpc) as (o & t' & E).
  rewrite E in Ecall. discriminate.
Qed.

(** The run ends in an exception exactly when the call does. *)
Lemma check_vat_reliability_raises vat_input e t :
  check_vat_reliability env vat_input = (Raised e, t)
  <-> normalize vat_input <> []
      /\ _call_service env (normalize vat_input) = (Raised e, t).
Proof.
  split.
  - intros E.
    destruct (check_vat_reliability_path vat_input)
      as [En|t' En Ecall|root t' En Ecall Ef|root t' element En Ecall Ef|e' t' En Ecall];
      try discriminate.
    injection E as <- <-. auto.
  - intros [Hne Ecall]. unfold check_vat_reliability.
    destruct (normalize vat_input) as [|c v]; [contradiction|].
    now rewrite Ecall.
Qed.

End CheckFacts.

(** ** Reading a result record *)

Section RecordFacts.
Variables (s r m : pystr) (a : bool) (c : pystr).

Lemma CheckResult_status : CheckResult s r m a c !! "status" = Some (VStr s).
Proof. reflexivity. Qed.

Lemma CheckResult_reliable :
  CheckResult s r m a c !! "reliable_vat_payer" = Some (VStr r).
Proof. reflexivity. Qed.

Lemma CheckResult_message : CheckResult s r m a c !! "message" = Some (VStr m).
Proof. reflexivity. Qed.

Lemma CheckResult_auto_checked :
  CheckResult s r m a c !! "auto_checked" = Some (VBool a).
Proof. reflexivity. Qed.

Lemma CheckResult_clean :
  CheckResult s r m a c !! "vat_number_clean" = Some (VStr c).
Proof. reflexivity. Qed.

Lemma CheckResult_dom :
  dom (CheckResult s r m a c)
  = ({["status"; "reliable_vat_payer"; "message"; "auto_checked";
       "vat_number_clean"]} : gset string).
Proof. unfold CheckResult. rewrite !dom_insert_L, dom_empty_L. set_solver. Qed.

End RecordFacts.

(** ** The path expression *)

Lemma matches_status_true v e :
  matches_status v e = true
  <-> tag e = status_tag /\ dict_get (lit "dic") (attrib e) = Some v.
Proof.
  unfold matches_status.
  rewrite andb_true_iff, pystr_eqb_eq, bool_decide_eq_true. tauto.
Qed.

Lemma iter_descendants root : iter root = root :: descendants root.
Proof. destruct root; reflexivity. Qed.

Lemma find_status_some root v el :
  find_status root v = Some el ->
  In el (descendants root) /\ tag el = status_tag
  /\ dict_get (lit "dic") (attrib el) = Some v.
Proof.
  unfold find_status. intros [Hin Hm]%List.find_some.
  apply matches_status_true in Hm. tauto.
Qed.

Lemma find_status_none root v :
  find_status root v = None
  <-> forall el, In el (descendants root) ->
                 ~ (tag el = status_tag /\ dict_get (lit "dic") (attrib el) = Some v).
Proof.
  unfold find_status. split.
  - intros Hnone el Hin Hm. apply matches_status_true in Hm.
    pose proof (List.find_none _ _ Hnone el Hin) as Hf. congruence.
  - intros Hall.
    destruct (List.find (matches_status v) (descendants root)) as [el|] eqn:E;
      [|reflexivity].
    apply List.find_some in E as [Hin Hm].
    apply matches_status_true in Hm. now destruct (Hall el Hin).
Qed.

Lemma find_status_present root v el0 :
  In el0 (descendants root) ->
  tag el0 = status_tag -> dict_get (lit "dic") (attrib el0) = Some v ->
  exists el, find_status root v = Some el.
Proof.
  intros Hin Ht Hd.
  destruct (find_status root v) as [el|] eqn:E; [eauto|].
  exfalso. exact (proj1 (find_status_none root v) E el0 Hin (conj Ht Hd)).
Qed.

(** [find] gives the first match in document order. *)
Lemma find_first {A} (p : A -> bool) (l : list A) x :
  List.find p l = Some x ->
  exists l1 l2, l = l1 ++ x :: l2 /\ forallb (fun y => negb (p y)) l1 = true.
Proof.
  induction l as [|y l IH]; simpl; [discriminate|].
  destruct (p y) eqn:Ey.
  - intros [= ->]. now exists [], l.
  - intros (l1 & l2 & -> & Hl1)%IH. exists (y :: l1), l2. simpl.
    now rewrite Ey, Hl1.
Qed.

(** ** Failure of the service call, by its cause *)

Section FailureFacts.
Context `{UnicodeData} (env : Env).

Lemma call_fails_returns_None vat_number t :
  call_fails env vat_number t -> _call_service env vat_number = (Returned None, t).
Proof.
  intros Hf. unfold _call_service.
  destruct Hf as [e He|data e He Hp|data resp He Hp Hs|data resp e He Hp Hs Hx Hc];
    rewrite He; simpl; [reflexivity|..]; unfold post; simpl; rewrite Hp; simpl;
    [reflexivity|..];
    destruct (raise_for_status_cases resp) as [[Hs' ->]|[Hs' ->]];
    try contradiction; simpl; [reflexivity|].
  unfold fromstring. rewrite Hx. simpl. now rewrite Hc.
Qed.

Lemma returns_None_call_fails vat_number t :
  _call_service env vat_number = (Returned None, t) -> call_fails env vat_number t.
Proof.
  intros E.
  destruct (_call_service_cases env vat_number)
    as [(t' & E' & Hf)|[(root & t' & E' & _)|(e & t' & E' & _)]];
    rewrite E in E'; try discriminate.
  now injection E' as ->.
Qed.

Lemma call_raises_Raised vat_number e t :
  call_raises env vat_number e t <-> _call_service env vat_number = (Raised e, t).
Proof.
  split.
  - intros (data & resp & He & Hp & Hs & Hx & Hc & ->).
    unfold _call_service. rewrite He. simpl. unfold post. simpl. rewrite Hp. simpl.
    destruct (raise_for_status_cases resp) as [[Hs' ->]|[Hs' ->]];
      try contradiction; simpl.
    unfold fromstring. rewrite Hx. simpl. now rewrite Hc.
  - intros E.
    destruct (_call_service_cases env vat_number)
      as [(t' & E' & Hf)|[(root & t' & E' & _)|(e' & t' & E' & Hr)]];
      rewrite E in E'; try discriminate.
    now injection E' as <- <-.
Qed.

End FailureFacts.

(** ** The properties of the specification *)

Lemma _interpret_status_cases status :
  (status = lit "ANO"
   /\ _interpret_status status = (lit "Unreliable", lit "false"))
  \/ (status = lit "NE"
      /\ _interpret_status status = (lit "Reliable", lit "true"))
  \/ (status <> lit "ANO" /\ status <> lit "NE"
      /\ _interpret_status status = (lit "Not found", lit "NA")).
Proof.
  unfold _interpret_status.
  destruct (pystr_eqb status (lit "ANO")) eqn:E1.
  { left. now apply pystr_eqb_eq in E1. }
  destruct (pystr_eqb status (lit "NE")) eqn:E2.
  { right; left. now apply pystr_eqb_eq in E2. }
  right; right. apply pystr_eqb_neq in E1, E2. auto.
Qed.

(** Settling a statement on the fields of a record whose fields are known:
    an equation between different literals is absurd. *)
Ltac clash :=
  match goal with
  | Hx : Some _ = Some _ |- _ => vm_compute in Hx; discriminate Hx
  end.

Ltac fields :=
  repeat match goal with
         | |- _ /\ _ => split
         | |- _ -> _ => intro
         end;
  try clash; try reflexivity; eauto.

Section Claims.
Context `{UnicodeData} (env : Env).

(** C1 (as amended): every record [check_vat_reliability] returns satisfies:
    [auto_checked] is false only when [status] is "error", which arises from
    an empty normalized input or a failed service call; [reliable_vat_payer]
    is "NA" whenever [status] is "not_found"; it is "false" only when
    [status] is "success"; and it is "true" only when [status] is "success"
    or the record is an error record, where the default stays in place.
    (A record is returned whenever the parser keeps to [ParseError].) *)
Theorem check_vat_reliability_invariant (vat_input : pystr) :
  (forall r t,
      check_vat_reliability env vat_input = (Returned r, t) ->
      kept_invariant env vat_input r)
  /\ (parser_contract env ->
      exists r t, check_vat_reliability env vat_input = (Returned r, t)).
Proof.
  split; [|apply check_vat_reliability_returns].
  intros r t Erun.
  destruct (check_vat_reliability_path env vat_input)
    as [En|t' En Ecall|root' t' En Ecall Ef|root' t' element' En Ecall Ef|e' t' En Ecall];
    try discriminate; injection Erun as <- <-; unfold kept_invariant;
    rewrite CheckResult_status, CheckResult_reliable, CheckResult_auto_checked.
  - fields.
  - apply returns_None_call_fails in Ecall. fields.
  - fields.
  - destruct (_interpret_status_cases (reliability_code element'))
      as [[_ ->]|[[_ ->]|(_ & _ & ->)]]; simpl; fields.
Qed.

(** C2: when the response holds a matching [statusPlatceDPH] element, the
    record has [status] "success", and the attribute [nespolehlivyPlatce] of
    the element found (the empty string if it is absent), stripped and
    upper-cased, decides the rest: "ANO" gives "false" and the label
    "Unreliable", "NE" gives "true" and "Reliable", anything else gives
    "NA" and "Not found". *)
Theorem status_table (vat_input : pystr) (root : Element) (t : list event)
    (el0 : Element) :
  normalize vat_input <> [] ->
  _call_service env (normalize vat_input) = (Returned (Some root), t) ->
  In el0 (descendants root) ->
  tag el0 = status_tag ->
  dict_get (lit "dic") (attrib el0) = Some (normalize vat_input) ->
  exists element r,
    find_status root (normalize vat_input) = Some element
    /\ check_vat_reliability env vat_input = (Returned r, t)
    /\ r !! "status" = Some (VStr (lit "success"))
    /\ let nsp :=
         upper (strip (default [] (dict_get (lit "nespolehlivyPlatce")
                                            (attrib element)))) in
       (nsp = lit "ANO" ->
        r !! "reliable_vat_payer" = Some (VStr (lit "false"))
        /\ r !! "message" = Some (VStr (lit "VAT Tax payer status: Unreliable")))
       /\ (nsp = lit "NE" ->
           r !! "reliable_vat_payer" = Some (VStr (lit "true"))
           /\ r !! "message" = Some (VStr (lit "VAT Tax payer status: Reliable")))
       /\ (nsp <> lit "ANO" -> nsp <> lit "NE" ->
           r !! "reliable_vat_payer" = Some (VStr (lit "NA"))
           /\ r !! "message" = Some (VStr (lit "VAT Tax payer status: Not found"))).
Proof.
  intros Hne Hcall Hin Htag Hdic.
  destruct (find_status_present root _ el0 Hin Htag Hdic) as [element Hfind].
  destruct (check_vat_reliability_path env vat_input)
    as [En|t' En Ecall|root' t' En Ecall Ef|root' t' element' En Ecall Ef|e' t' En Ecall];
    try contradiction; rewrite Hcall in Ecall; try discriminate;
    injection Ecall as <- <-; rewrite Hfind in Ef; try discriminate.
  injection Ef as <-.
  exists element. eexists. split; [exact Hfind|]. split; [reflexivity|].
  rewrite CheckResult_status, CheckResult_reliable, CheckResult_message.
  split; [reflexivity|].
  fold (reliability_code element). cbv zeta.
  destruct (_interpret_status_cases (reliability_code element))
    as [[E ->]|[[E ->]|(E1 & E2 & ->)]]; simpl;
    (split; [|split]); intros; try (split; reflexivity); try contradiction;
    exfalso;
    match goal with
    | Hx : reliability_code element = _ |- _ =>
        rewrite E in Hx; vm_compute in Hx; discriminate Hx
    end.
Qed.

(** C3: if the service call fails, that is [_call_service] returns [None],
    then [check_vat_reliability] returns (no exception escapes) a record
    with [status] "error", [auto_checked] false and [reliable_vat_payer]
    "true". *)
Theorem service_failure_record (vat_input : pystr) (t : list event) :
  _call_service env (normalize vat_input) = (Returned None, t) ->
  exists r t',
    check_vat_reliability env vat_input = (Returned r, t')
    /\ r !! "status" = Some (VStr (lit "error"))
    /\ r !! "auto_checked" = Some (VBool false)
    /\ r !! "reliable_vat_payer" = Some (VStr (lit "true")).
Proof.
  intros Hcall.
  destruct (check_vat_reliability_path env vat_input)
    as [En|t' En Ecall|root' t' En Ecall Ef|root' t' element' En Ecall Ef|e' t' En Ecall];
    try (rewrite Hcall in Ecall; discriminate);
    eexists; eexists; (split; [reflexivity|]);
    rewrite CheckResult_status, CheckResult_reliable, CheckResult_auto_checked;
    auto.
Qed.

(** C4: if the parsed response holds no [statusPlatceDPH] element whose
    [dic] attribute is the digit string sent, the record has [status]
    "not_found" and [reliable_vat_payer] "NA". *)
Theorem not_found_record (vat_input : pystr) (root : Element) (t : list event) :
  normalize vat_input <> [] ->
  _call_service env (normalize vat_input) = (Returned (Some root), t) ->
  (forall el, In el (iter root) ->
              ~ (tag el = status_tag
                 /\ dict_get (lit "dic") (attrib el) = Some (normalize vat_input))) ->
  exists r,
    check_vat_reliability env vat_input = (Returned r, t)
    /\ r !! "status" = Some (VStr (lit "not_found"))
    /\ r !! "reliable_vat_payer" = Some (VStr (lit "NA")).
Proof.
  intros Hne Hcall Habsent.
  assert (Hnone : find_status root (normalize vat_input) = None).
  { apply find_status_none. intros el Hin. apply Habsent.
    rewrite iter_descendants. now right. }
  destruct (check_vat_reliability_path env vat_input)
    as [En|t' En Ecall|root' t' En Ecall Ef|root' t' element' En Ecall Ef|e' t' En Ecall];
    try contradiction; rewrite Hcall in Ecall; try discriminate;
    injection Ecall as <- <-; rewrite Hnone in Ef; try discriminate.
  eexists. split; [reflexivity|].
  now rewrite CheckResult_status, CheckResult_reliable.
Qed.

(** C5: for an input without a decimal digit the record has [status]
    "error" and [auto_checked] false, and nothing was done on the way: no
    request was posted. *)
Theorem no_digit_record (vat_input : pystr) :
  (forall c, In c vat_input -> uni_isdecimal c = false) ->
  exists r,
    check_vat_reliability env vat_input = (Returned r, [])
    /\ r !! "status" = Some (VStr (lit "error"))
    /\ r !! "auto_checked" = Some (VBool false).
Proof.
  intros Hno.
  assert (Hnil : normalize vat_input = []).
  { apply normalize_nil, forallb_forall. intros c Hc.
    unfold category_not_digit. now rewrite (Hno c Hc). }
  destruct (check_vat_reliability_path env vat_input)
    as [En|t' En Ecall|root' t' En Ecall Ef|root' t' element' En Ecall Ef|e' t' En Ecall];
    try contradiction.
  eexists. split; [reflexivity|].
  now rewrite CheckResult_status, CheckResult_auto_checked.
Qed.

(** C6: [vat_number_clean] of the record returned is the input without its
    non-digit characters, the digits in their order (on an ASCII input: the
    characters '0'..'9' of it).  (A record is returned whenever the parser
    keeps to [ParseError].) *)
Theorem vat_number_clean_digits (vat_input : pystr) :
  (forall r t,
      check_vat_reliability env vat_input = (Returned r, t) ->
      r !! "vat_number_clean" = Some (VStr (List.filter uni_isdecimal vat_input)))
  /\ ((forall c, In c vat_input -> c < 128) ->
      List.filter uni_isdecimal vat_input = List.filter ascii_digit vat_input)
  /\ (parser_contract env ->
      exists r t, check_vat_reliability env vat_input = (Returned r, t)).
Proof.
  split; [|split; [apply filter_ascii_digits|apply check_vat_reliability_returns]].
  intros r t Erun. rewrite <- normalize_filter.
  destruct (check_vat_reliability_path env vat_input)
    as [En|t' En Ecall|root' t' En Ecall Ef|root' t' element' En Ecall Ef|e' t' En Ecall];
    try discriminate; injection Erun as <- <-; rewrite CheckResult_clean;
    congruence.
Qed.

(** C7: two inputs with the same digits give, with the same service, the
    same outcome, and an input gives what its digits alone give. *)
Theorem format_insensitive (x y : pystr) :
  List.filter uni_isdecimal x = List.filter uni_isdecimal y ->
  check_vat_reliability env x = check_vat_reliability env y
  /\ check_vat_reliability env x
     = check_vat_reliability env (List.filter uni_isdecimal x).
Proof.
  rewrite <- !normalize_filter. intros Hxy.
  unfold check_vat_reliability.
  now rewrite normalize_idempotent, Hxy.
Qed.

(** X21: every record returned is complete: it has the five keys of the
    dictionary literal and no other, [status] and [reliable_vat_payer] hold
    one of their three values, [auto_checked] a boolean; and a record is
    returned whenever the parser keeps to [ParseError]. *)
Lemma returned_record_complete (vat_input : pystr) :
  (forall r t,
      check_vat_reliability env vat_input = (Returned r, t) -> complete_record r)
  /\ (parser_contract env ->
      exists r t, check_vat_reliability env vat_input = (Returned r, t)).
Proof.
  split; [|apply check_vat_reliability_returns].
  intros r t Erun.
  destruct (check_vat_reliability_path env vat_input)
    as [En|t' En Ecall|root' t' En Ecall Ef|root' t' element' En Ecall Ef|e' t' En Ecall];
    try discriminate; injection Erun as <- <-; unfold complete_record;
    rewrite CheckResult_dom, CheckResult_status, CheckResult_reliable,
      CheckResult_message, CheckResult_auto_checked, CheckResult_clean;
    (split; [reflexivity|]).
  1-3: repeat split; eexists; (split; [reflexivity|]) || reflexivity; simpl; auto.
  destruct (_interpret_status_cases (reliability_code element'))
    as [[_ ->]|[[_ ->]|(_ & _ & ->)]]; simpl;
    repeat split; eexists; (split; [reflexivity|]) || reflexivity; simpl; auto.
Qed.

(** What the second handler lets pass leaves [check_vat_reliability] as an
    exception: no record is returned. *)
Lemma parser_exception_escapes (vat_input : pystr) (e : PyExc) (t : list event) :
  normalize vat_input <> [] ->
  call_raises env (normalize vat_input) e t ->
  check_vat_reliability env vat_input = (Raised e, t).
Proof.
  intros Hne Hr. apply check_vat_reliability_raises. split; [exact Hne|].
  now apply call_raises_Raised.
Qed.

(** C10: for an input without a digit the record keeps the default
    [reliable_vat_payer] "true". *)
Theorem no_digit_default (vat_input : pystr) :
  (forall c, In c vat_input -> uni_isdecimal c = false) ->
  exists r t,
    check_vat_reliability env vat_input = (Returned r, t)
    /\ r !! "status" = Some (VStr (lit "error"))
    /\ r !! "reliable_vat_payer" = Some (VStr (lit "true")).
Proof.
  intros Hno.
  assert (Hnil : normalize vat_input = []).
  { apply normalize_nil, forallb_forall. intros c Hc.
    unfold category_not_digit. now rewrite (Hno c Hc). }
  destruct (check_vat_reliability_path env vat_input)
    as [En|t' En Ecall|root' t' En Ecall Ef|root' t' element' En Ecall Ef|e' t' En Ecall];
    try contradiction.
  eexists. eexists. split; [reflexivity|].
  now rewrite CheckResult_status, CheckResult_reliable.
Qed.

End Claims.

(** ** The request builder *)

Section DigitFacts.
Context `{UnicodeData}.

(** A decimal digit is none of the characters that end or open markup. *)
Lemma digit_plain c :
  uni_isdecimal c = true ->
  xml_char c = true /\ c <> 60 /\ c <> 38 /\ c <> 93
  /\ (c < 55296 \/ (57344 <= c /\ c <= 1114111)).
Proof.
  intros Hd. unfold xml_char.
  destruct (N.lt_ge_cases c 128) as [Hlt|Hge].
  - rewrite (isdecimal_ascii c Hlt) in Hd.
    apply andb_true_iff in Hd as [H1%N.leb_le H2%N.leb_le].
    repeat split; try lia.
    rewrite !orb_true_iff, !andb_true_iff, !N.leb_le. lia.
  - apply isdecimal_assigned in Hd.
    repeat split; try lia.
    rewrite !orb_true_iff, !andb_true_iff, !N.leb_le. lia.
Qed.

Lemma digits_no_cdata_end d :
  forallb uni_isdecimal d = true -> has_cdata_end d = false.
Proof.
  induction d as [|a d IH]; simpl; [reflexivity|].
  intros [Ha Hd]%andb_true_iff. rewrite (IH Hd), orb_false_r.
  destruct d as [|b [|c d']]; try reflexivity.
  apply digit_plain in Ha as (_ & _ & _ & Ha & _).
  apply N.eqb_neq in Ha. now rewrite Ha.
Qed.

Lemma digits_char_data d : forallb uni_isdecimal d = true -> char_data d = true.
Proof.
  intros Hd. unfold char_data. rewrite (digits_no_cdata_end d Hd), andb_true_r.
  apply forallb_forall. intros c Hc.
  assert (Hdc : uni_isdecimal c = true) by (eapply forallb_forall in Hd; eauto).
  apply digit_plain in Hdc as (Hx & H60 & H38 & _).
  apply N.eqb_neq in H60, H38. now rewrite Hx, H60, H38.
Qed.

End DigitFacts.

Lemma utf8_char_encodable c : encodable c = true -> exists b, utf8_char c = inr b.
Proof.
  unfold encodable, utf8_char. intros Hc.
  destruct (c <? 128); [eauto|].
  destruct (c <? 2048); [eauto|].
  destruct (c <? 65536) eqn:E3.
  - destruct ((55296 <=? c) && (c <=? 57343)) eqn:Es; [|eauto].
    exfalso. revert Hc Es.
    rewrite orb_true_iff, !andb_true_iff, !N.leb_le, N.ltb_lt. lia.
  - destruct (c <=? 1114111) eqn:E4; [eauto|].
    exfalso. revert Hc. apply N.ltb_ge in E3. apply N.leb_gt in E4.
    rewrite orb_true_iff, !andb_true_iff, !N.leb_le, N.ltb_lt. lia.
Qed.

Lemma str_encode_utf8_encodable s :
  forallb encodable s = true -> exists b, str_encode_utf8 s = inr b.
Proof.
  induction s as [|c s IH]; simpl; [eauto|].
  intros [Hc Hs]%andb_true_iff.
  destruct (utf8_char_encodable c Hc) as [b ->].
  destruct (IH Hs) as [bs ->]. eauto.
Qed.

(** Rebracketing a text that is built by concatenation. *)
Ltac same_text :=
  unfold _build_soap_envelope; rewrite <- ?app_assoc, ?app_nil_r; reflexivity.

Lemma wf_element_text s n atxt attrs body kids :
  s = lit "<" ++ n ++ atxt ++ lit ">" ++ body ++ lit "</" ++ n ++ lit ">" ->
  xml_name n = true ->
  wf_attributes atxt attrs -> NoDup (map fst attrs) ->
  wf_content body kids ->
  wf_element s (XElement n attrs kids).
Proof. intros ->. apply wf_element_tags. Qed.

Lemma wf_content_one_text t : char_data t = true -> wf_content t [XText t].
Proof.
  intros Ht. rewrite <- (app_nil_r t) at 1.
  apply wf_content_text; [assumption|constructor].
Qed.

(** An element between two runs of white space. *)
Lemma wf_content_indented s w1 e w2 el :
  s = w1 ++ e ++ w2 ->
  char_data w1 = true -> wf_element e el -> char_data w2 = true ->
  wf_content s [XText w1; el; XText w2].
Proof.
  intros -> H1 He H2.
  apply wf_content_text; [assumption|].
  apply wf_content_element; [assumption|].
  now apply wf_content_one_text.
Qed.

Lemma wf_attributes_one s sp n v :
  s = sp ++ n ++ lit "=" ++ dq ++ v ++ dq ->
  sp <> [] -> forallb xml_space sp = true ->
  xml_name n = true -> att_value v = true ->
  wf_attributes s [(n, v)].
Proof.
  intros -> Hsp Hs Hn Hv.
  replace (sp ++ n ++ lit "=" ++ dq ++ v ++ dq)
    with (sp ++ n ++ lit "=" ++ dq ++ v ++ dq ++ []) by now rewrite app_nil_r.
  apply wf_attributes_cons; auto. constructor.
Qed.

Section Envelope.
Context `{UnicodeData}.
Variable d : pystr.
Hypothesis digits : forallb uni_isdecimal d = true.

Lemma wf_dic :
  wf_element (lit "<dic>" ++ d ++ lit "</dic>") (XElement (lit "dic") [] [XText d]).
Proof.
  apply wf_element_text with (atxt := []) (body := d).
  - same_text.
  - reflexivity.
  - constructor.
  - constructor.
  - apply wf_content_one_text, digits_char_data, digits.
Qed.

Lemma wf_request :
  wf_element
    (lit "<StatusNespolehlivyPlatceRequest xmlns=" ++ dq ++ NS_crp ++ dq ++ lit ">"
     ++ nl ++ lit "      <dic>" ++ d ++ lit "</dic>" ++ nl
     ++ lit "    </StatusNespolehlivyPlatceRequest>")
    (XElement (lit "StatusNespolehlivyPlatceRequest") [(lit "xmlns", NS_crp)]
       [XText (nl ++ lit "      "); XElement (lit "dic") [] [XText d];
        XText (nl ++ lit "    ")]).
Proof.
  apply wf_element_text
    with (atxt := lit " xmlns=" ++ dq ++ NS_crp ++ dq)
         (body := (nl ++ lit "      ") ++ (lit "<dic>" ++ d ++ lit "</dic>")
                  ++ (nl ++ lit "    ")).
  - same_text.
  - reflexivity.
  - apply wf_attributes_one with (sp := lit " "); try reflexivity. discriminate.
  - apply NoDup_singleton.
  - apply wf_content_indented
      with (e := lit "<dic>" ++ d ++ lit "</dic>"); try reflexivity.
    apply wf_dic.
Qed.

Lemma wf_body :
  wf_element
    (lit "<soapenv:Body>" ++ nl
     ++ lit "    <StatusNespolehlivyPlatceRequest xmlns=" ++ dq ++ NS_crp ++ dq
     ++ lit ">" ++ nl
     ++ lit "      <dic>" ++ d ++ lit "</dic>" ++ nl
     ++ lit "    </StatusNespolehlivyPlatceRequest>" ++ nl
     ++ lit "  </soapenv:Body>")
    (XElement (lit "soapenv:Body") []
       [XText (nl ++ lit "    ");
        XElement (lit "StatusNespolehlivyPlatceRequest") [(lit "xmlns", NS_crp)]
          [XText (nl ++ lit "      "); XElement (lit "dic") [] [XText d];
           XText (nl ++ lit "    ")];
        XText (nl ++ lit "  ")]).
Proof.
  eapply wf_element_text with (atxt := []);
    [| reflexivity | constructor | constructor
     | eapply wf_content_indented; [reflexivity | reflexivity | apply wf_request
                                    | reflexivity]].
  same_text.
Qed.

Lemma wf_envelope :
  wf_element
    (lit "<soapenv:Envelope xmlns:soapenv=" ++ dq ++ NS_soap ++ dq ++ lit ">" ++ nl
     ++ lit "  <soapenv:Body>" ++ nl
     ++ lit "    <StatusNespolehlivyPlatceRequest xmlns=" ++ dq ++ NS_crp ++ dq
     ++ lit ">" ++ nl
     ++ lit "      <dic>" ++ d ++ lit "</dic>" ++ nl
     ++ lit "    </StatusNespolehlivyPlatceRequest>" ++ nl
     ++ lit "  </soapenv:Body>" ++ nl
     ++ lit "</soapenv:Envelope>")
    (envelope_tree d).
Proof.
  eapply wf_element_text
    with (atxt := lit " xmlns:soapenv=" ++ dq ++ NS_soap ++ dq);
    [| reflexivity
     | apply wf_attributes_one with (sp := lit " "); try reflexivity; discriminate
     | apply NoDup_singleton
     | eapply wf_content_indented; [reflexivity | reflexivity | apply wf_body
                                    | reflexivity]].
  same_text.
Qed.

Lemma envelope_encodable : forallb encodable (_build_soap_envelope d) = true.
Proof.
  assert (Hd : forallb encodable d = true).
  { apply forallb_forall. intros c Hc.
    assert (Hdc : uni_isdecimal c = true)
      by (eapply forallb_forall in digits; eauto).
    apply digit_plain in Hdc as (_ & _ & _ & _ & He). unfold encodable.
    rewrite orb_true_iff, !andb_true_iff, !N.leb_le, N.ltb_lt. lia. }
  unfold _build_soap_envelope. rewrite !forallb_app, Hd. reflexivity.
Qed.

End Envelope.

Lemma wf_document_text doc enc m1 s root m2 :
  doc = lit "<?xml version=" ++ dq ++ lit "1.0" ++ dq
        ++ lit " encoding=" ++ dq ++ enc ++ dq ++ lit "?>" ++ m1 ++ s ++ m2 ->
  enc_name enc = true ->
  forallb xml_space m1 = true -> wf_element s root ->
  forallb xml_space m2 = true ->
  wf_document doc enc root.
Proof. intros ->. apply wf_document_intro. Qed.

Lemma envelope_tree_shape d : request_shape (envelope_tree d) d.
Proof.
  unfold request_shape, envelope_tree.
  do 8 eexists. repeat split; try reflexivity.
  simpl. apply app_nil_r.
Qed.

(** C9: for a string [d] of decimal digits, [_build_soap_envelope d] is a
    well-formed XML document that declares the encoding UTF-8 and can be
    encoded in it; its root is the SOAP [Envelope], whose only child element
    is the SOAP [Body], whose only child element is the request element of
    the service's namespace, whose only child element [dic] has the text
    [d] and no child element. *)
Theorem _build_soap_envelope_well_formed `{UnicodeData} (d : pystr) :
  forallb uni_isdecimal d = true ->
  wf_document (_build_soap_envelope d) (lit "UTF-8") (envelope_tree d)
  /\ request_shape (envelope_tree d) d
  /\ exists b, str_encode_utf8 (_build_soap_envelope d) = inr b.
Proof.
  intros Hd. split; [|split].
  - eapply wf_document_text with (m1 := nl) (m2 := []);
      [| reflexivity | reflexivity | apply (wf_envelope d Hd) | reflexivity].
    same_text.
  - apply envelope_tree_shape.
  - apply str_encode_utf8_encodable, envelope_encodable, Hd.
Qed.

(** ** The program at work *)

Section Scenarios.
#[local] Existing Instance sample_ucd.

Example scenario_reliable :
  exists r t,
    check_vat_reliability registry (lit "CZ25083062") = (Returned r, t)
    /\ r = CheckResult (lit "success") (lit "true")
             (lit "VAT Tax payer status: Reliable") true (lit "25083062").
Proof. do 2 eexists. split; reflexivity. Qed.

Example scenario_spaces :
  check_vat_reliability registry (lit "250 830 62")
  = check_vat_reliability registry (lit "CZ25083062").
Proof. reflexivity. Qed.

Example scenario_unreliable_any_case :
  result_of (check_vat_reliability
               (answering (registry_answer (lit "25083062") (lit " ano ")))
               (lit "CZ25083062"))
  = Returned (CheckResult (lit "success") (lit "false")
                (lit "VAT Tax payer status: Unreliable") true (lit "25083062")).
Proof. reflexivity. Qed.

Example scenario_unknown_code :
  result_of (check_vat_reliability
               (answering (registry_answer (lit "25083062") (lit "NENALEZEN")))
               (lit "CZ25083062"))
  = Returned (CheckResult (lit "success") (lit "NA")
                (lit "VAT Tax payer status: Not found") true (lit "25083062")).
Proof. reflexivity. Qed.

Example scenario_other_payer :
  result_of (check_vat_reliability registry (lit "CZ00000019"))
  = Returned (CheckResult (lit "not_found") (lit "NA")
                (lit "VAT payer not found in registry") true (lit "00000019")).
Proof. reflexivity. Qed.

(** The request carries the digits between the tags of [dic]. *)
Example scenario_request_embeds_dic :
  exists before after,
    _build_soap_envelope (normalize (lit "CZ25083062"))
    = before ++ lit "<dic>25083062</dic>" ++ after.
Proof.
  exists (firstn 221 (_build_soap_envelope (lit "25083062"))),
         (skipn 240 (_build_soap_envelope (lit "25083062"))).
  reflexivity.
Qed.

(** UTF-8 at its four lengths, and a lone surrogate. *)
Example utf8_lengths :
  str_encode_utf8 [65; 1635; 8364; 128512]
  = inr [Byte.x41; Byte.xd9; Byte.xa3; Byte.xe2; Byte.x82; Byte.xac;
         Byte.xf0; Byte.x9f; Byte.x98; Byte.x80]
  /\ str_encode_utf8 [65; 56320] = inl (UnicodeEncodeError 56320).
Proof. split; reflexivity. Qed.

(** The step [.//] does not select the root itself. *)
Example scenario_root_only :
  find_status (mkElement status_tag [(lit "dic", lit "25083062")] [])
              (lit "25083062") = None.
Proof. reflexivity. Qed.

(** [\d] is wider than '0'..'9': Arabic-Indic digits stay. *)
Example scenario_arabic_indic :
  normalize [67; 90; 1634; 1637] = [1634; 1637].
Proof. reflexivity. Qed.

Example scenario_server_error :
  check_vat_reliability (failing 503) (lit "CZ25083062")
  = (Returned (CheckResult (lit "error") (lit "true")
                 (lit "Error: could not get response from VAT service") false
                 (lit "25083062")),
     [Posted SERVICE_URL
        (match str_encode_utf8 (_build_soap_envelope (lit "25083062")) with
         | inr b => b
         | inl _ => []
         end)
        request_headers 30;
      PrintedStderr (lit "Error contacting service: ") (HTTPError 503)]).
Proof. reflexivity. Qed.

Example scenario_garbled_answer :
  check_vat_reliability garbled (lit "CZ25083062")
  = (Returned (CheckResult (lit "error") (lit "true")
                 (lit "Error: could not get response from VAT service") false
                 (lit "25083062")),
     [Posted SERVICE_URL
        (match str_encode_utf8 (_build_soap_envelope (lit "25083062")) with
         | inr b => b
         | inl _ => []
         end)
        request_headers 30;
      PrintedStderr (lit "Error parsing XML response: ")
        (ParseError (lit "syntax error: line 1, column 0"))]).
Proof. reflexivity. Qed.

(** C8 fails where the answer of the service declares an encoding the
    parser does not read: [ET.fromstring] raises [ValueError], the handler
    for [ET.ParseError] lets it pass, and [check_vat_reliability] ends in
    that exception after the request was posted; no record is returned. *)
Theorem unsupported_encoding_escapes :
  check_vat_reliability misencoded (lit "CZ25083062")
  = (Raised (OtherException (lit "ValueError")
               (lit "multi-byte encodings are not supported")),
     [Posted SERVICE_URL
        (match str_encode_utf8 (_build_soap_envelope (lit "25083062")) with
         | inr b => b
         | inl _ => []
         end)
        request_headers 30]).
Proof. reflexivity. Qed.

(** The first handler, for [Exception], catches the same exception when the
    transport raises it. *)
Example scenario_transport_value_error :
  result_of
    (check_vat_reliability
       {| requests_post := fun _ _ _ _ =>
            inl (OtherException (lit "ValueError") (lit "check_hostname requires server_hostname"));
          ET_fromstring := fun _ => inr (mkElement (lit "a") [] []) |}
       (lit "CZ25083062"))
  = Returned (CheckResult (lit "error") (lit "true")
                (lit "Error: could not get response from VAT service") false
                (lit "25083062")).
Proof. reflexivity. Qed.

(** C1, as the specification words it, fails where the service cannot be
    reached: the record is an error record and keeps the default "true". *)
Lemma stated_invariant_counterexample :
  exists r,
    result_of (check_vat_reliability unreachable (lit "CZ25083062")) = Returned r
    /\ r !! "status" = Some (VStr (lit "error"))
    /\ r !! "reliable_vat_payer" = Some (VStr (lit "true"))
    /\ ~ stated_invariant r.
Proof.
  eexists. split; [reflexivity|]. split; [reflexivity|]. split; [reflexivity|].
  intros (_ & _ & Hthird).
  assert (Hs : CheckResult (lit "error") (lit "true")
                 (lit "Error: could not get response from VAT service") false
                 (lit "25083062") !! "status" = Some (VStr (lit "success"))).
  { apply Hthird. left. reflexivity. }
  vm_compute in Hs. discriminate Hs.
Qed.

Lemma registry_parser_contract : parser_contract registry.
Proof. intros b e Hb. discriminate Hb. Qed.

Lemma check_vat_reliability_invariant_witness :
  exists r t,
    check_vat_reliability registry (lit "CZ25083062") = (Returned r, t)
    /\ kept_invariant registry (lit "CZ25083062") r.
Proof.
  destruct (check_vat_reliability_invariant registry (lit "CZ25083062"))
    as [Hinv Hret].
  destruct (Hret registry_parser_contract) as (r & t & Erun).
  exists r, t. split; [exact Erun|]. exact (Hinv r t Erun).
Defined.

Lemma vat_number_clean_digits_witness :
  exists r t,
    check_vat_reliability registry (lit "CZ25083062") = (Returned r, t)
    /\ r !! "vat_number_clean" = Some (VStr (lit "25083062")).
Proof.
  destruct (vat_number_clean_digits registry (lit "CZ25083062"))
    as (Hclean & _ & Hret).
  destruct (Hret registry_parser_contract) as (r & t & Erun).
  exists r, t. split; [exact Erun|]. exact (Hclean r t Erun).
Defined.

Lemma status_table_witness :
  exists r,
    result_of (check_vat_reliability registry (lit "CZ25083062")) = Returned r
    /\ r !! "status" = Some (VStr (lit "success"))
    /\ r !! "reliable_vat_payer" = Some (VStr (lit "true"))
    /\ r !! "message" = Some (VStr (lit "VAT Tax payer status: Reliable")).
Proof.
  destruct (status_table registry (lit "CZ25083062")
              (registry_answer (lit "25083062") (lit "NE"))
              (trace_of (_call_service registry (lit "25083062")))
              (mkElement status_tag
                 [(lit "dic", lit "25083062"); (lit "nespolehlivyPlatce", lit "NE")] []))
    as (element & r & Hfind & Hrun & Hstatus & _ & Hne & _).
  - vm_compute. discriminate.
  - vm_compute. reflexivity.
  - vm_compute. tauto.
  - reflexivity.
  - reflexivity.
  - vm_compute in Hfind. injection Hfind as <-.
    exists r. split; [now rewrite Hrun|]. split; [exact Hstatus|].
    apply Hne. reflexivity.
Defined.

Lemma service_failure_record_witness :
  exists r t,
    check_vat_reliability unreachable (lit "CZ25083062") = (Returned r, t)
    /\ r !! "status" = Some (VStr (lit "error"))
    /\ r !! "auto_checked" = Some (VBool false)
    /\ r !! "reliable_vat_payer" = Some (VStr (lit "true")).
Proof.
  apply (service_failure_record unreachable (lit "CZ25083062")
           (trace_of (_call_service unreachable (lit "25083062")))).
  vm_compute. reflexivity.
Defined.

Lemma not_found_record_witness :
  exists r,
    check_vat_reliability registry (lit "CZ00000019")
    = (Returned r, trace_of (_call_service registry (lit "00000019")))
    /\ r !! "status" = Some (VStr (lit "not_found"))
    /\ r !! "reliable_vat_payer" = Some (VStr (lit "NA")).
Proof.
  apply (not_found_record registry (lit "CZ00000019")
           (registry_answer (lit "25083062") (lit "NE"))).
  - vm_compute. discriminate.
  - vm_compute. reflexivity.
  - intros el Hin [_ Hdic]. vm_compute in Hin, Hdic.
    repeat (destruct Hin as [<-|Hin]; [discriminate Hdic|]). exact Hin.
Defined.

Lemma no_digit_record_witness :
  exists r,
    check_vat_reliability unreachable (lit "CZ-") = (Returned r, [])
    /\ r !! "status" = Some (VStr (lit "error"))
    /\ r !! "auto_checked" = Some (VBool false).
Proof.
  apply (no_digit_record unreachable (lit "CZ-")).
  intros c Hc. vm_compute in Hc.
  repeat (destruct Hc as [<-|Hc]; [reflexivity|]). destruct Hc.
Defined.

Lemma format_insensitive_witness :
  check_vat_reliability registry (lit "CZ25083062")
  = check_vat_reliability registry (lit "250 830 62")
  /\ check_vat_reliability registry (lit "CZ25083062")
     = check_vat_reliability registry
         (List.filter uni_isdecimal (lit "CZ25083062")).
Proof.
  apply (format_insensitive registry (lit "CZ25083062") (lit "250 830 62")).
  vm_compute. reflexivity.
Defined.

Lemma _build_soap_envelope_well_formed_witness :
  wf_document (_build_soap_envelope (lit "25083062")) (lit "UTF-8")
              (envelope_tree (lit "25083062"))
  /\ request_shape (envelope_tree (lit "25083062")) (lit "25083062")
  /\ exists b, str_encode_utf8 (_build_soap_envelope (lit "25083062")) = inr b.
Proof.
  apply (_build_soap_envelope_well_formed (lit "25083062")).
  vm_compute. reflexivity.
Defined.

Lemma no_digit_default_witness :
  exists r t,
    check_vat_reliability unreachable (lit "CZ-") = (Returned r, t)
    /\ r !! "status" = Some (VStr (lit "error"))
    /\ r !! "reliable_vat_payer" = Some (VStr (lit "true")).
Proof.
  apply (no_digit_default unreachable (lit "CZ-")).
  intros c Hc. vm_compute in Hc.
  repeat (destruct Hc as [<-|Hc]; [reflexivity|]). destruct Hc.
Defined.

End Scenarios.

(** * Further properties of the program *)

(** ** The traffic of [_call_service] *)

Section TrafficFacts.
Context `{UnicodeData} (env : Env).

(** The traces [_call_service] can leave. *)
Lemma _call_service_shape vat_number :
  exists o t,
    _call_service env vat_number = (o, t)
    /\ ((exists e,
           str_encode_utf8 (_build_soap_envelope vat_number) = inl e
           /\ o = Returned None
           /\ t = [PrintedStderr (lit "Error contacting service: ") e])
        \/ (exists data,
              str_encode_utf8 (_build_soap_envelope vat_number) = inr data
              /\ ((o = Returned None
                   /\ exists text exc,
                       t = [Posted SERVICE_URL data request_headers 30;
                            PrintedStderr text exc]
                       /\ (text = lit "Error contacting service: "
                           \/ text = lit "Error parsing XML response: "))
                  \/ (exists root,
                        o = Returned (Some root)
                        /\ t = [Posted SERVICE_URL data request_headers 30])
                  \/ (exists e,
                        o = Raised e
                        /\ t = [Posted SERVICE_URL data request_headers 30])))).
Proof.
  destruct (_call_service_cases env vat_number)
    as [(t & E & Hf)|[(root & t & E & Hs)|(e & t & E & Hr)]];
    do 2 eexists; (split; [exact E|]).
  - destruct Hf as [e He|data e He Hp|data resp He Hp Hs|data resp e He Hp Hs Hx Hc].
    + left. eauto.
    + right. exists data. split; [exact He|]. left. split; [reflexivity|].
      do 2 eexists. split; [reflexivity|]. now left.
    + right. exists data. split; [exact He|]. left. split; [reflexivity|].
      do 2 eexists. split; [reflexivity|]. now left.
    + right. exists data. split; [exact He|]. left. split; [reflexivity|].
      do 2 eexists. split; [reflexivity|]. now right.
  - destruct Hs as (data & resp & He & _ & _ & _ & ->).
    right. exists data. split; [exact He|]. right; left. eauto.
  - destruct Hr as (data & resp & He & _ & _ & _ & _ & ->).
    right. exists data. split; [exact He|]. right; right. eauto.
Qed.

(** X1: [_call_service] posts at most one request (there is no retry); a
    request it posts is its first action and goes to [SERVICE_URL] with the
    two fixed headers, the timeout 30 and, as its body, the UTF-8 text of
    the envelope around [vat_number]. *)
Theorem _call_service_single_request (vat_number : pystr) :
  (length (List.filter is_posted (trace_of (_call_service env vat_number))) <= 1)%nat
  /\ forall url data headers timeout,
       In (Posted url data headers timeout) (trace_of (_call_service env vat_number)) ->
       url = SERVICE_URL
       /\ str_encode_utf8 (_build_soap_envelope vat_number) = inr data
       /\ headers = request_headers
       /\ timeout = 30%Z
       /\ exists rest,
           trace_of (_call_service env vat_number)
           = Posted url data headers timeout :: rest.
Proof.
  destruct (_call_service_shape vat_number) as (o & t & E & Hshape).
  rewrite E. unfold trace_of. simpl.
  destruct Hshape as [(e & He & -> & ->)|(data & He & Hcases)].
  - split; [simpl; lia|]. intros url d h z [Hin|[]]. discriminate Hin.
  - assert (Ht : exists rest,
               t = Posted SERVICE_URL data request_headers 30 :: rest
               /\ List.filter is_posted rest = []).
    { destruct Hcases as [(-> & text & exc & -> & _)|[(root & -> & ->)|(e & -> & ->)]];
        eexists; split; reflexivity. }
    destruct Ht as (rest & -> & Hrest). simpl. rewrite Hrest. split; [simpl; lia|].
    intros url d h z [Hin|Hin].
    + injection Hin as <- <- <- <-. repeat split; eauto.
    + exfalso.
      assert (Hf : In (Posted url d h z) (List.filter is_posted rest))
        by (apply List.filter_In; split; [exact Hin|reflexivity]).
      rewrite Hrest in Hf. destruct Hf.
Qed.

(** X2: [_call_service] prints on [stderr] exactly when it returns [None]:
    then one line, which starts with one of the two texts of the source;
    when it returns a root, or ends in an exception, it prints nothing. *)
Theorem _call_service_diagnostic (vat_number : pystr) :
  (result_of (_call_service env vat_number) = Returned None ->
   exists text exc,
     List.filter is_stderr (trace_of (_call_service env vat_number))
     = [PrintedStderr text exc]
     /\ (text = lit "Error contacting service: "
         \/ text = lit "Error parsing XML response: "))
  /\ (result_of (_call_service env vat_number) <> Returned None ->
      List.filter is_stderr (trace_of (_call_service env vat_number)) = []).
Proof.
  destruct (_call_service_shape vat_number) as (o & t & E & Hshape).
  rewrite E. unfold trace_of, result_of. simpl.
  destruct Hshape as [(e & He & -> & ->)|(data & He & Hcases)].
  - split; [|congruence]. intros _. do 2 eexists. split; [reflexivity|]. now left.
  - destruct Hcases as [(-> & text & exc & -> & Htext)|[(root & -> & ->)|(e & -> & ->)]].
    + split; [|congruence]. intros _. exists text, exc. split; [reflexivity|exact Htext].
    + split; [discriminate|reflexivity].
    + split; [discriminate|reflexivity].
Qed.

End TrafficFacts.

(** ** What a record tells about the run *)

Section RunFacts.
Context `{UnicodeData} (env : Env).

Lemma normalize_not_nil x :
  normalize x <> [] <-> exists c, In c x /\ uni_isdecimal c = true.
Proof.
  rewrite normalize_filter. split.
  - destruct (List.filter uni_isdecimal x) as [|c l] eqn:E; [congruence|].
    intros _. exists c. apply List.filter_In. rewrite E. now left.
  - intros (c & Hc) E. apply List.filter_In in Hc. rewrite E in Hc. destruct Hc.
Qed.

(** The text sent for a normalized input has a UTF-8 form. *)
Lemma normalized_envelope_encodes x :
  exists data, str_encode_utf8 (_build_soap_envelope (normalize x)) = inr data.
Proof.
  apply str_encode_utf8_encodable, envelope_encodable, normalize_digits.
Qed.

(** After a digit was found, the trace is that of the call. *)
Lemma check_vat_reliability_trace x :
  normalize x <> [] ->
  trace_of (check_vat_reliability env x)
  = trace_of (_call_service env (normalize x)).
Proof.
  intros Hne.
  destruct (check_vat_reliability_path env x)
    as [En|t En Ecall|root t En Ecall Ef|root t element En Ecall Ef|e t En Ecall];
    try contradiction; now rewrite Ecall.
Qed.

(** X3: for an input with a decimal digit, [check_vat_reliability] posts
    exactly one request, as its first action; its body is the UTF-8 text of
    the envelope around the digits of the input, which always has one: the
    encoding step cannot fail. *)
Theorem one_request_for_digits (vat_input : pystr) :
  (exists c, In c vat_input /\ uni_isdecimal c = true) ->
  exists data rest,
    str_encode_utf8 (_build_soap_envelope (normalize vat_input)) = inr data
    /\ trace_of (check_vat_reliability env vat_input)
       = Posted SERVICE_URL data request_headers 30 :: rest
    /\ List.filter is_posted rest = [].
Proof.
  intros Hne%normalize_not_nil.
  rewrite (check_vat_reliability_trace _ Hne).
  destruct (normalized_envelope_encodes vat_input) as [data Hdata].
  destruct (_call_service_shape env (normalize vat_input)) as (o & t & E & Hshape).
  rewrite E. unfold trace_of. simpl.
  destruct Hshape as [(e & He & _)|(data' & He & Hcases)]; [congruence|].
  assert (data' = data) as -> by congruence.
  exists data.
  destruct Hcases as [(-> & text & exc & -> & _)|[(root & -> & ->)|(e & -> & ->)]];
    eexists; (split; [exact Hdata|split; reflexivity]).
Qed.

(** X4: in a record returned, [status] is "error" exactly when
    [auto_checked] is false, and [auto_checked] is true exactly when the
    input had a digit and the call gave a parsed document. *)
Theorem auto_checked_meaning (vat_input : pystr) (r : gmap string pyval)
    (t : list event) :
  check_vat_reliability env vat_input = (Returned r, t) ->
  (r !! "status" = Some (VStr (lit "error"))
   <-> r !! "auto_checked" = Some (VBool false))
  /\ (r !! "auto_checked" = Some (VBool true)
      <-> normalize vat_input <> []
          /\ exists root,
              result_of (_call_service env (normalize vat_input))
              = Returned (Some root)).
Proof.
  intros Erun.
  destruct (check_vat_reliability_path env vat_input)
    as [En|t' En Ecall|root t' En Ecall Ef|root t' element En Ecall Ef|e t' En Ecall];
    try discriminate; injection Erun as <- <-;
    rewrite CheckResult_status, CheckResult_auto_checked;
    try rewrite Ecall; unfold result_of; simpl.
  - repeat split; intros; try reflexivity; try clash.
    destruct H0 as [Hne _]. contradiction.
  - repeat split; intros; try reflexivity; try clash.
    destruct H0 as (_ & root & Hroot). discriminate Hroot.
  - repeat split; intros; try reflexivity; try clash; eauto.
  - repeat split; intros; try reflexivity; try clash; eauto.
Qed.

(** X5: the two error records differ in [message] and [vat_number_clean],
    and in nothing else: either no digit was found, the message says so,
    [vat_number_clean] is empty and nothing was done; or the call failed,
    the message says so and [vat_number_clean] holds the digits sent. *)
Theorem error_record_cause (vat_input : pystr) (r : gmap string pyval)
    (t : list event) :
  check_vat_reliability env vat_input = (Returned r, t) ->
  r !! "status" = Some (VStr (lit "error")) ->
  (normalize vat_input = []
   /\ r = CheckResult (lit "error") (lit "true")
            (lit "Invalid VAT number - no digits found") false []
   /\ t = [])
  \/ (normalize vat_input <> []
      /\ r = CheckResult (lit "error") (lit "true")
               (lit "Error: could not get response from VAT service") false
               (normalize vat_input)
      /\ call_fails env (normalize vat_input) t).
Proof.
  intros Erun Hstatus.
  destruct (check_vat_reliability_path env vat_input)
    as [En|t' En Ecall|root t' En Ecall Ef|root t' element En Ecall Ef|e t' En Ecall];
    try discriminate; injection Erun as <- <-;
    rewrite CheckResult_status in Hstatus; try clash.
  - left. auto.
  - right. apply returns_None_call_fails in Ecall. auto.
Qed.

(** X6: a line is printed on [stderr] exactly for the record of a failed
    call: whenever a record is returned, the trace holds a diagnostic if and
    only if the message is the one of the service failure. *)
Theorem diagnostic_iff_service_failure (vat_input : pystr)
    (r : gmap string pyval) (t : list event) :
  check_vat_reliability env vat_input = (Returned r, t) ->
  (exists text exc, In (PrintedStderr text exc) t)
  <-> r !! "message"
      = Some (VStr (lit "Error: could not get response from VAT service")).
Proof.
  intros Erun.
  destruct (check_vat_reliability_path env vat_input)
    as [En|t' En Ecall|root t' En Ecall Ef|root t' element En Ecall Ef|e t' En Ecall];
    try discriminate; injection Erun as <- <-; rewrite CheckResult_message.
  - split; [intros (text & exc & [])|intros Hm; clash].
  - split; [reflexivity|]. intros _.
    pose proof (proj1 (_call_service_diagnostic env (normalize vat_input))) as Hd.
    rewrite Ecall in Hd. unfold result_of, trace_of in Hd. simpl in Hd.
    destruct (Hd eq_refl) as (text & exc & Hfil & _).
    exists text, exc.
    assert (Hin : In (PrintedStderr text exc) (List.filter is_stderr t'))
      by (rewrite Hfil; now left).
    now apply List.filter_In in Hin.
  - split; [|intros Hm; clash]. intros (text & exc & Hin). exfalso.
    pose proof (proj2 (_call_service_diagnostic env (normalize vat_input))) as Hd.
    rewrite Ecall in Hd. unfold result_of, trace_of in Hd. simpl in Hd.
    assert (Hf : In (PrintedStderr text exc) (List.filter is_stderr t'))
      by (apply List.filter_In; split; [exact Hin|reflexivity]).
    rewrite Hd in Hf by discriminate. destruct Hf.
  - split.
    + intros (text & exc & Hin). exfalso.
      pose proof (proj2 (_call_service_diagnostic env (normalize vat_input))) as Hd.
      rewrite Ecall in Hd. unfold result_of, trace_of in Hd. simpl in Hd.
      assert (Hf : In (PrintedStderr text exc) (List.filter is_stderr t'))
        by (apply List.filter_In; split; [exact Hin|reflexivity]).
      rewrite Hd in Hf by discriminate. destruct Hf.
    + intros Hm. exfalso.
      destruct (_interpret_status_cases (reliability_code element))
        as [[_ E]|[[_ E]|(_ & _ & E)]]; rewrite E in Hm; clash.
Qed.

(** X7: [check_vat_reliability] ends in an exception in one case only: the
    input has a digit, the service answered without an error status, and
    the parser raised an exception that is no [ParseError]; that exception
    is the one it ends in.  (Transport errors, error statuses and
    [ParseError] never leave it.) *)
Theorem raises_iff_parser_raises (vat_input : pystr) (e : PyExc) (t : list event) :
  check_vat_reliability env vat_input = (Raised e, t)
  <-> normalize vat_input <> [] /\ call_raises env (normalize vat_input) e t.
Proof.
  rewrite check_vat_reliability_raises. now rewrite call_raises_Raised.
Qed.

End RunFacts.

(** ** Reading the reliability code *)

Section CodeFacts.
Context `{UnicodeData}.

Lemma lstrip_spaces w s :
  forallb uni_isspace w = true -> lstrip (w ++ s) = lstrip s.
Proof.
  induction w as [|c w IH]; simpl; [reflexivity|].
  intros [Hc Hw]%andb_true_iff. rewrite Hc. auto.
Qed.

Lemma lstrip_blank w : forallb uni_isspace w = true -> lstrip w = [].
Proof.
  intros Hw. rewrite <- (app_nil_r w). now rewrite lstrip_spaces.
Qed.

Lemma rstrip_spaces s w :
  forallb uni_isspace w = true -> rstrip (s ++ w) = rstrip s.
Proof.
  intros Hw. unfold rstrip. rewrite rev_app_distr, lstrip_spaces; [reflexivity|].
  rewrite forallb_forall in *. intros c Hc. apply Hw. now apply in_rev.
Qed.

Lemma strip_right s w :
  forallb uni_isspace w = true -> strip (s ++ w) = strip s.
Proof.
  intros Hw. unfold strip.
  induction s as [|c s IH]; simpl.
  - now rewrite (lstrip_blank w Hw).
  - destruct (uni_isspace c); [exact IH|].
    exact (rstrip_spaces (c :: s) w Hw).
Qed.

Lemma strip_spaces w1 s w2 :
  forallb uni_isspace w1 = true -> forallb uni_isspace w2 = true ->
  strip (w1 ++ s ++ w2) = strip s.
Proof.
  intros H1 H2. unfold strip at 1. rewrite lstrip_spaces by exact H1.
  fold (strip (s ++ w2)). now apply strip_right.
Qed.

(** X8: white space around the value of [nespolehlivyPlatce] does not count:
    an element whose value is that of another with characters of
    [str.isspace] before and after it is read as the same code, and gives
    the same label and the same [reliable_vat_payer]. *)
Theorem surrounding_whitespace_ignored (e1 e2 : Element) (w1 a w2 : pystr) :
  forallb uni_isspace w1 = true ->
  forallb uni_isspace w2 = true ->
  dict_get (lit "nespolehlivyPlatce") (attrib e1) = Some (w1 ++ a ++ w2) ->
  dict_get (lit "nespolehlivyPlatce") (attrib e2) = Some a ->
  reliability_code e1 = reliability_code e2
  /\ _interpret_status (reliability_code e1)
     = _interpret_status (reliability_code e2).
Proof.
  intros H1 H2 E1 E2.
  assert (Hc : reliability_code e1 = reliability_code e2).
  { unfold reliability_code. rewrite E1, E2. simpl.
    now rewrite strip_spaces. }
  split; [exact Hc|now rewrite Hc].
Qed.

End CodeFacts.

Section InterpreterFacts.
Context `{UnicodeData} (env : Env).

(** X9: a matching element whose attribute [nespolehlivyPlatce] is missing,
    empty or all white space gives a record with [status] "success",
    [reliable_vat_payer] "NA" and the label "Not found". *)
Theorem blank_code_record (vat_input : pystr) (root element : Element)
    (t : list event) :
  normalize vat_input <> [] ->
  _call_service env (normalize vat_input) = (Returned (Some root), t) ->
  find_status root (normalize vat_input) = Some element ->
  forallb uni_isspace
    (default [] (dict_get (lit "nespolehlivyPlatce") (attrib element))) = true ->
  check_vat_reliability env vat_input
  = (Returned (CheckResult (lit "success") (lit "NA")
                 (lit "VAT Tax payer status: Not found") true
                 (normalize vat_input)),
     t).
Proof.
  intros Hne Hcall Hfind Hblank.
  assert (Hcode : reliability_code element = []).
  { unfold reliability_code, strip. now rewrite (lstrip_blank _ Hblank). }
  destruct (check_vat_reliability_path env vat_input)
    as [En|t' En Ecall|root' t' En Ecall Ef|root' t' element' En Ecall Ef|e t' En Ecall];
    try contradiction; rewrite Hcall in Ecall; try discriminate;
    injection Ecall as <- <-; rewrite Hfind in Ef; try discriminate.
  injection Ef as <-. now rewrite Hcode.
Qed.

(** X10: of several matching elements the first in document order is the
    one read: before the element [find] gives, no descendant of the root
    matches. *)
Theorem first_match_decides (root element : Element) (vat_number : pystr) :
  find_status root vat_number = Some element ->
  exists before after,
    descendants root = before ++ element :: after
    /\ forall el, In el before ->
                  ~ (tag el = status_tag
                     /\ dict_get (lit "dic") (attrib el) = Some vat_number).
Proof.
  unfold find_status. intros (l1 & l2 & Hd & Hl1)%find_first.
  exists l1, l2. split; [exact Hd|].
  intros el Hin Hm%matches_status_true.
  rewrite forallb_forall in Hl1. specialize (Hl1 el Hin).
  now rewrite Hm in Hl1.
Qed.

(** X11: a response with a client or server error status is never parsed:
    whatever its body and whatever the parser would make of it, the record
    is the one of the failed call, and the trace is the request and the
    diagnostic of the HTTP error. *)
Theorem error_status_not_parsed (vat_input : pystr) (data : bytes)
    (resp : Response) :
  normalize vat_input <> [] ->
  str_encode_utf8 (_build_soap_envelope (normalize vat_input)) = inr data ->
  requests_post env SERVICE_URL data request_headers 30 = inr resp ->
  (400 <= status_code resp < 600)%Z ->
  check_vat_reliability env vat_input
  = (Returned (CheckResult (lit "error") (lit "true")
                 (lit "Error: could not get response from VAT service") false
                 (normalize vat_input)),
     [Posted SERVICE_URL data request_headers 30;
      PrintedStderr (lit "Error contacting service: ")
        (HTTPError (status_code resp))]).
Proof.
  intros Hne Henc Hpost Hstatus.
  pose proof (call_fails_returns_None env _ _
                (fails_status env _ data resp Henc Hpost Hstatus)) as Hcall.
  destruct (check_vat_reliability_path env vat_input)
    as [En|t' En Ecall|root' t' En Ecall Ef|root' t' element' En Ecall Ef|e t' En Ecall];
    try contradiction; rewrite Hcall in Ecall; try discriminate.
  now injection Ecall as <-.
Qed.

(** X12: any other status is not looked at: the body of a response whose
    status is outside 400..599 (a 200, and also a 204 or a 302 that
    [requests] hands over) goes to the parser, and the parser alone
    decides what [_call_service] gives. *)
Theorem other_status_parsed (vat_number : pystr) (data : bytes) (resp : Response) :
  str_encode_utf8 (_build_soap_envelope vat_number) = inr data ->
  requests_post env SERVICE_URL data request_headers 30 = inr resp ->
  ~ (400 <= status_code resp < 600)%Z ->
  _call_service env vat_number
  = match ET_fromstring env (content resp) with
    | inr root => (Returned (Some root), [Posted SERVICE_URL data request_headers 30])
    | inl e =>
        if isinstance e ET_ParseError
        then (Returned None,
              [Posted SERVICE_URL data request_headers 30;
               PrintedStderr (lit "Error parsing XML response: ") e])
        else (Raised e, [Posted SERVICE_URL data request_headers 30])
    end.
Proof.
  intros Henc Hpost Hstatus.
  destruct (ET_fromstring env (content resp)) as [e|root] eqn:Ex.
  - destruct (isinstance e ET_ParseError) eqn:Ec.
    + apply call_fails_returns_None. eapply fails_parsing; eassumption.
    + apply call_raises_Raised. exists data, resp.
      repeat split; assumption || reflexivity.
  - destruct (_call_service_cases env vat_number)
      as [(t & E & Hf)|[(root' & t & E & Hs)|(e & t & E & Hr)]].
    + exfalso.
      destruct Hf as [e He|d e He Hp|d r He Hp Hs|d r e He Hp Hs Hx Hc];
        rewrite Henc in He; try discriminate; injection He as <-;
        rewrite Hpost in Hp; try discriminate; injection Hp as <-;
        [contradiction|congruence].
    + destruct Hs as (d & r & He & Hp & _ & Hx & ->).
      rewrite Henc in He. injection He as <-.
      rewrite Hpost in Hp. injection Hp as <-. rewrite E. congruence.
    + exfalso. destruct Hr as (d & r & He & Hp & _ & Hx & _).
      rewrite Henc in He. injection He as <-.
      rewrite Hpost in Hp. injection Hp as <-. congruence.
Qed.

End InterpreterFacts.

(** ** The normalizer and the request text *)

Section TextFacts.
Context `{UnicodeData}.

(** X13: normalizing goes through concatenation; so what is put before or
    after an identifier and holds no digit (a country prefix, spaces, a
    line end) changes nothing. *)
Theorem normalize_app (a b : pystr) :
  normalize (a ++ b) = normalize a ++ normalize b
  /\ ((forall c, In c a -> uni_isdecimal c = false) ->
      normalize (a ++ b) = normalize b)
  /\ ((forall c, In c b -> uni_isdecimal c = false) ->
      normalize (a ++ b) = normalize a).
Proof.
  assert (Happ : normalize (a ++ b) = normalize a ++ normalize b)
    by (rewrite !normalize_filter; apply List.filter_app).
  assert (Hnil : forall s, (forall c, In c s -> uni_isdecimal c = false) ->
                           normalize s = []).
  { intros s Hs. apply normalize_nil, forallb_forall. intros c Hc.
    unfold category_not_digit. now rewrite (Hs c Hc). }
  repeat split; [exact Happ| |]; intros Hs; rewrite Happ, (Hnil _ Hs).
  - reflexivity.
  - apply app_nil_r.
Qed.

End TextFacts.

(** X14: the request text determines the identifier: the builder puts any
    string between the same two texts, so two strings with the same
    envelope are equal. *)
Theorem _build_soap_envelope_injective (d1 d2 : pystr) :
  _build_soap_envelope d1 = _build_soap_envelope d2 -> d1 = d2.
Proof.
  unfold _build_soap_envelope. intros Heq.
  repeat apply app_inv_head in Heq.
  now apply app_inv_tail in Heq.
Qed.

(** ** The command line *)

Lemma hex_digit_printable k : k < 16 -> printable (hex_digit k) = true.
Proof.
  intros Hk. unfold printable, hex_digit.
  destruct (k <? 10) eqn:E;
    [apply N.ltb_lt in E|apply N.ltb_ge in E];
    apply andb_true_iff; split; apply N.leb_le; lia.
Qed.

Lemma hex4_printable n : forallb printable (hex4 n) = true.
Proof.
  unfold hex4. simpl.
  rewrite !hex_digit_printable; [reflexivity|..]; now apply N.mod_lt.
Qed.

Lemma json_escape_char_printable c :
  forallb printable (json_escape_char c) = true.
Proof.
  unfold json_escape_char.
  repeat match goal with
         | |- context [if ?b then _ else _] =>
             let E := fresh "E" in destruct b eqn:E; [try reflexivity|]
         end.
  - simpl. unfold printable. now rewrite E6.
  - rewrite forallb_app, hex4_printable. reflexivity.
  - cbv zeta. rewrite !forallb_app, !hex4_printable. reflexivity.
Qed.

Lemma json_string_printable s : forallb printable (json_string s) = true.
Proof.
  unfold json_string. rewrite !forallb_app. simpl. rewrite andb_true_r.
  induction s as [|c s IH]; simpl; [reflexivity|].
  now rewrite forallb_app, json_escape_char_printable.
Qed.

Lemma json_value_printable v : forallb printable (json_value v) = true.
Proof. destruct v as [s|[|]]; [apply json_string_printable|reflexivity..]. Qed.

Lemma join_printable sep l :
  forallb printable sep = true ->
  Forall (fun s => forallb printable s = true) l ->
  forallb printable (join sep l) = true.
Proof.
  intros Hsep Hl. induction Hl as [|x l Hx Hl IH]; [reflexivity|].
  destruct l as [|y l]; [exact Hx|].
  change (join sep (x :: y :: l)) with (x ++ sep ++ join sep (y :: l)).
  now rewrite !forallb_app, Hx, Hsep, IH.
Qed.

Lemma json_items_printable (r : gmap string pyval) (ks : list string) :
  Forall (fun s => forallb printable s = true) (omap (json_item r) ks).
Proof.
  induction ks as [|k ks IH]; simpl; [constructor|].
  unfold json_item at 1. destruct (r !! k) as [v|]; [|exact IH].
  constructor; [|exact IH].
  now rewrite !forallb_app, json_string_printable, json_value_printable.
Qed.

Lemma json_dumps_printable r : forallb printable (json_dumps r) = true.
Proof.
  unfold json_dumps. rewrite !forallb_app.
  rewrite (join_printable (lit ", ") _ eq_refl (json_items_printable r result_keys)).
  reflexivity.
Qed.

(** The text [json.dumps] writes for a record. *)
Lemma json_dumps_CheckResult s rv m a c :
  json_dumps (CheckResult s rv m a c)
  = lit "{" ++ dq ++ lit "status" ++ dq ++ lit ": " ++ json_string s
    ++ lit ", " ++ dq ++ lit "reliable_vat_payer" ++ dq ++ lit ": " ++ json_string rv
    ++ lit ", " ++ dq ++ lit "message" ++ dq ++ lit ": " ++ json_string m
    ++ lit ", " ++ dq ++ lit "auto_checked" ++ dq ++ lit ": "
    ++ (if a then lit "true" else lit "false")
    ++ lit ", " ++ dq ++ lit "vat_number_clean" ++ dq ++ lit ": " ++ json_string c
    ++ lit "}".
Proof.
  unfold json_dumps, result_keys, json_item. simpl omap.
  rewrite CheckResult_status, CheckResult_reliable, CheckResult_message,
    CheckResult_auto_checked, CheckResult_clean.
  simpl omap. unfold join, json_value.
  destruct a; rewrite <- ?app_assoc; reflexivity.
Qed.

(** A string of printable characters other than the quote and the
    backslash is written as it is. *)
Lemma json_string_plain s :
  forallb (fun c => printable c && negb (c =? 34) && negb (c =? 92)) s = true ->
  json_string s = dq ++ s ++ dq.
Proof.
  intros Hs. unfold json_string. f_equal. f_equal.
  induction s as [|c s IH]; simpl; [reflexivity|].
  simpl in Hs. apply andb_true_iff in Hs as [Hc Hs]. rewrite (IH Hs).
  apply andb_true_iff in Hc as [Hc H92]. apply andb_true_iff in Hc as [Hp H34].
  apply negb_true_iff in H34, H92. unfold printable in Hp.
  unfold json_escape_char. rewrite H34, H92.
  apply andb_true_iff in Hp as [Hlo Hhi]. apply N.leb_le in Hlo.
  repeat match goal with
         | |- context [?x =? ?y] =>
             replace (x =? y) with false by (symmetry; apply N.eqb_neq; lia)
         end.
  apply N.leb_le in Hlo. now rewrite Hlo, Hhi.
Qed.

Section CommandLineFacts.
Context `{UnicodeData} (env : Env).

Lemma filter_stdout_Did t : List.filter is_stdout (map Did t) = [].
Proof. induction t as [|ev t IH]; simpl; [reflexivity|exact IH]. Qed.

(** Every record returned carries the digits of the input. *)
Lemma returned_record_shape vat_input r t :
  check_vat_reliability env vat_input = (Returned r, t) ->
  exists s rv m a, r = CheckResult s rv m a (normalize vat_input).
Proof.
  intros Erun.
  destruct (check_vat_reliability_path env vat_input)
    as [En|t' En Ecall|root t' En Ecall Ef|root t' element En Ecall Ef|e t' En Ecall];
    try discriminate; injection Erun as <- <-; try rewrite En; eauto.
Qed.

(** X15: the process writes on [stdout] one line, the JSON text of the
    record, when [check_vat_reliability] returns, and nothing when it ends
    in an exception; what it writes is printable ASCII throughout: no line
    break and no character beyond the tilde, whatever the input. *)
Theorem main_stdout (args_vat : pystr) :
  List.filter is_stdout (snd (main env args_vat))
  = match result_of (check_vat_reliability env args_vat) with
    | Returned r => [PrintedStdout (json_dumps r)]
    | Raised _ => []
    end
  /\ forall text,
       In (PrintedStdout text) (snd (main env args_vat)) ->
       forallb printable text = true.
Proof.
  unfold main, result_of.
  destruct (check_vat_reliability env args_vat) as [[r|e] t]; simpl.
  - rewrite List.filter_app, filter_stdout_Did. split; [reflexivity|].
    intros text [Hin|[Hin|[]]]%in_app_or.
    + apply in_map_iff in Hin as (ev & Hev & _). discriminate Hev.
    + injection Hin as <-. apply json_dumps_printable.
  - rewrite filter_stdout_Did. split; [reflexivity|].
    intros text Hin. apply in_map_iff in Hin as (ev & Hev & _). discriminate Hev.
Qed.

(** X16: the line holds the five keys in the order of the dictionary
    literal, [vat_number_clean] with the digits of the argument, and it is
    the last thing the process does. *)
Theorem main_prints_record (args_vat : pystr) (r : gmap string pyval)
    (t : list event) :
  check_vat_reliability env args_vat = (Returned r, t) ->
  exists s rv m a,
    r = CheckResult s rv m a (normalize args_vat)
    /\ main env args_vat
       = (Returned tt,
          map Did t
          ++ [PrintedStdout
                (lit "{" ++ dq ++ lit "status" ++ dq ++ lit ": " ++ json_string s
                 ++ lit ", " ++ dq ++ lit "reliable_vat_payer" ++ dq ++ lit ": "
                 ++ json_string rv
                 ++ lit ", " ++ dq ++ lit "message" ++ dq ++ lit ": " ++ json_string m
                 ++ lit ", " ++ dq ++ lit "auto_checked" ++ dq ++ lit ": "
                 ++ (if a then lit "true" else lit "false")
                 ++ lit ", " ++ dq ++ lit "vat_number_clean" ++ dq ++ lit ": "
                 ++ json_string (normalize args_vat)
                 ++ lit "}")]).
Proof.
  intros Erun.
  destruct (returned_record_shape _ _ _ Erun) as (s & rv & m & a & ->).
  exists s, rv, m, a. split; [reflexivity|].
  unfold main. rewrite Erun. now rewrite json_dumps_CheckResult.
Qed.

(** X17: for an argument without a digit the process prints the record of
    the invalid input and does nothing else: no request, nothing on
    [stderr], and it ends normally. *)
Theorem main_no_digit (args_vat : pystr) :
  (forall c, In c args_vat -> uni_isdecimal c = false) ->
  main env args_vat
  = (Returned tt,
     [PrintedStdout
        (lit "{" ++ dq ++ lit "status" ++ dq ++ lit ": " ++ dq ++ lit "error" ++ dq
         ++ lit ", " ++ dq ++ lit "reliable_vat_payer" ++ dq ++ lit ": "
         ++ dq ++ lit "true" ++ dq
         ++ lit ", " ++ dq ++ lit "message" ++ dq ++ lit ": "
         ++ dq ++ lit "Invalid VAT number - no digits found" ++ dq
         ++ lit ", " ++ dq ++ lit "auto_checked" ++ dq ++ lit ": false"
         ++ lit ", " ++ dq ++ lit "vat_number_clean" ++ dq ++ lit ": " ++ dq ++ dq
         ++ lit "}")]).
Proof.
  intros Hno.
  assert (Hnil : normalize args_vat = []).
  { apply normalize_nil, forallb_forall. intros c Hc.
    unfold category_not_digit. now rewrite (Hno c Hc). }
  unfold main.
  destruct (check_vat_reliability_path env args_vat)
    as [En|t' En Ecall|root t' En Ecall Ef|root t' element En Ecall Ef|e t' En Ecall];
    try contradiction.
  reflexivity.
Qed.

End CommandLineFacts.

(** X18: in the JSON text, ASCII digits stand as they are: for an ASCII
    argument the value of [vat_number_clean] is written as its characters
    '0'..'9' between two quotes, without any escape. *)
Theorem json_digits_verbatim `{UnicodeData} (args_vat : pystr) :
  (forall c, In c args_vat -> c < 128) ->
  json_string (normalize args_vat)
  = dq ++ List.filter ascii_digit args_vat ++ dq.
Proof.
  intros Hascii. rewrite normalize_filter, (filter_ascii_digits _ Hascii).
  apply json_string_plain, forallb_forall.
  intros c [_ Hc]%List.filter_In. unfold ascii_digit in Hc.
  apply andb_true_iff in Hc as [Hlo%N.leb_le Hhi%N.leb_le].
  unfold printable.
  replace (32 <=? c) with true by (symmetry; apply N.leb_le; lia).
  replace (c <=? 126) with true by (symmetry; apply N.leb_le; lia).
  replace (c =? 34) with false by (symmetry; apply N.eqb_neq; lia).
  replace (c =? 92) with false by (symmetry; apply N.eqb_neq; lia).
  reflexivity.
Qed.

(** ** The status of a record *)

Section StatusFacts.
Context `{UnicodeData} (env : Env).

(** X19: [status] tells how far the run came: it is "success" exactly when
    the input had a digit, the call gave a document and [find] gave an
    element of it, and "not_found" exactly when the call gave a document in
    which [find] gave none. *)
Theorem status_meaning (vat_input : pystr) (r : gmap string pyval)
    (t : list event) :
  check_vat_reliability env vat_input = (Returned r, t) ->
  (r !! "status" = Some (VStr (lit "success"))
   <-> normalize vat_input <> []
       /\ exists root element,
           _call_service env (normalize vat_input) = (Returned (Some root), t)
           /\ find_status root (normalize vat_input) = Some element)
  /\ (r !! "status" = Some (VStr (lit "not_found"))
      <-> normalize vat_input <> []
          /\ exists root,
              _call_service env (normalize vat_input) = (Returned (Some root), t)
              /\ find_status root (normalize vat_input) = None).
Proof.
  intros Erun.
  destruct (check_vat_reliability_path env vat_input)
    as [En|t' En Ecall|root t' En Ecall Ef|root t' element En Ecall Ef|e t' En Ecall];
    try discriminate; injection Erun as <- <-; rewrite CheckResult_status.
  - split; (split; [intros Hs; clash|intros [Hne _]; contradiction]).
  - split; (split; [intros Hs; clash|]).
    + intros (_ & root & el & Hc & _). rewrite Ecall in Hc. discriminate.
    + intros (_ & root & Hc & _). rewrite Ecall in Hc. discriminate.
  - split; split.
    + intros Hs; clash.
    + intros (_ & root' & el & Hc & Hf). rewrite Ecall in Hc.
      injection Hc as <-. rewrite Ef in Hf. discriminate.
    + intros _. eauto.
    + reflexivity.
  - split; split.
    + intros _. eauto.
    + reflexivity.
    + intros Hs; clash.
    + intros (_ & root' & Hc & Hf). rewrite Ecall in Hc.
      injection Hc as <-. rewrite Ef in Hf. discriminate.
Qed.

(** X20: the root of the response is not searched: when no proper
    descendant of the root matches, the record is the one of the payer not
    found, also if the root itself is a matching status element. *)
Theorem root_not_searched (vat_input : pystr) (root : Element) (t : list event) :
  normalize vat_input <> [] ->
  _call_service env (normalize vat_input) = (Returned (Some root), t) ->
  (forall el, In el (descendants root) ->
              ~ (tag el = status_tag
                 /\ dict_get (lit "dic") (attrib el) = Some (normalize vat_input))) ->
  check_vat_reliability env vat_input
  = (Returned (CheckResult (lit "not_found") (lit "NA")
                 (lit "VAT payer not found in registry") true
                 (normalize vat_input)),
     t).
Proof.
  intros Hne Hcall Hnone%find_status_none.
  destruct (check_vat_reliability_path env vat_input)
    as [En|t' En Ecall|root' t' En Ecall Ef|root' t' element' En Ecall Ef|e t' En Ecall];
    try contradiction; rewrite Hcall in Ecall; try discriminate;
    injection Ecall as <- <-; rewrite Hnone in Ef; try discriminate.
  reflexivity.
Qed.

End StatusFacts.

(** ** The further properties at work *)

Section MoreScenarios.
#[local] Existing Instance sample_ucd.

(** The text [json.dumps] writes, with an escape of each kind. *)
Example json_string_escapes :
  json_string [127; 1; 128512; 233; 34; 92; 47; 10]
  = dq ++ lit "\u007f\u0001\ud83d\ude00\u00e9\" ++ dq ++ lit "\\/\n" ++ dq.
Proof. reflexivity. Qed.

Lemma one_request_for_digits_witness :
  exists data rest,
    str_encode_utf8 (_build_soap_envelope (normalize (lit "CZ25083062"))) = inr data
    /\ trace_of (check_vat_reliability unreachable (lit "CZ25083062"))
       = Posted SERVICE_URL data request_headers 30 :: rest
    /\ List.filter is_posted rest = [].
Proof.
  apply (one_request_for_digits unreachable (lit "CZ25083062")).
  exists 50. split; [|reflexivity]. vm_compute. do 2 right. now left.
Defined.

Lemma auto_checked_meaning_witness :
  (CheckResult (lit "success") (lit "true") (lit "VAT Tax payer status: Reliable")
     true (lit "25083062") !! "status" = Some (VStr (lit "error"))
   <-> CheckResult (lit "success") (lit "true")
         (lit "VAT Tax payer status: Reliable") true (lit "25083062")
       !! "auto_checked" = Some (VBool false))
  /\ (CheckResult (lit "success") (lit "true")
        (lit "VAT Tax payer status: Reliable") true (lit "25083062")
      !! "auto_checked" = Some (VBool true)
      <-> normalize (lit "CZ25083062") <> []
          /\ exists root,
              result_of (_call_service registry (normalize (lit "CZ25083062")))
              = Returned (Some root)).
Proof.
  apply (auto_checked_meaning registry (lit "CZ25083062") _
           (trace_of (check_vat_reliability registry (lit "CZ25083062")))).
  vm_compute. reflexivity.
Defined.

Lemma error_record_cause_witness :
  (normalize (lit "CZ25083062") = []
   /\ CheckResult (lit "error") (lit "true")
        (lit "Error: could not get response from VAT service") false
        (lit "25083062")
      = CheckResult (lit "error") (lit "true")
          (lit "Invalid VAT number - no digits found") false []
   /\ trace_of (check_vat_reliability (failing 503) (lit "CZ25083062")) = [])
  \/ (normalize (lit "CZ25083062") <> []
      /\ CheckResult (lit "error") (lit "true")
           (lit "Error: could not get response from VAT service") false
           (lit "25083062")
         = CheckResult (lit "error") (lit "true")
             (lit "Error: could not get response from VAT service") false
             (normalize (lit "CZ25083062"))
      /\ call_fails (failing 503) (normalize (lit "CZ25083062"))
           (trace_of (check_vat_reliability (failing 503) (lit "CZ25083062")))).
Proof.
  apply (error_record_cause (failing 503) (lit "CZ25083062")).
  - vm_compute. reflexivity.
  - reflexivity.
Defined.

Lemma diagnostic_iff_service_failure_witness :
  (exists text exc,
      In (PrintedStderr text exc)
         (trace_of (check_vat_reliability garbled (lit "CZ25083062"))))
  <-> CheckResult (lit "error") (lit "true")
        (lit "Error: could not get response from VAT service") false
        (lit "25083062") !! "message"
      = Some (VStr (lit "Error: could not get response from VAT service")).
Proof.
  apply (diagnostic_iff_service_failure garbled (lit "CZ25083062")).
  vm_compute. reflexivity.
Defined.

Lemma surrounding_whitespace_ignored_witness :
  reliability_code
    (mkElement status_tag [(lit "nespolehlivyPlatce", [9; 32] ++ lit "ano" ++ [160; 10])] [])
  = reliability_code (mkElement status_tag [(lit "nespolehlivyPlatce", lit "ano")] [])
  /\ _interpret_status
       (reliability_code
          (mkElement status_tag
             [(lit "nespolehlivyPlatce", [9; 32] ++ lit "ano" ++ [160; 10])] []))
     = _interpret_status
         (reliability_code
            (mkElement status_tag [(lit "nespolehlivyPlatce", lit "ano")] [])).
Proof.
  apply (surrounding_whitespace_ignored _ _ [9; 32] (lit "ano") [160; 10]);
    reflexivity.
Defined.

Lemma blank_code_record_witness :
  check_vat_reliability (answering (registry_answer (lit "25083062") (lit "  ")))
    (lit "CZ25083062")
  = (Returned (CheckResult (lit "success") (lit "NA")
                 (lit "VAT Tax payer status: Not found") true
                 (normalize (lit "CZ25083062"))),
     [Posted SERVICE_URL (payload_of (lit "25083062")) request_headers 30]).
Proof.
  apply (blank_code_record _ (lit "CZ25083062")
           (registry_answer (lit "25083062") (lit "  "))
           (mkElement status_tag
              [(lit "dic", lit "25083062"); (lit "nespolehlivyPlatce", lit "  ")] [])).
  - vm_compute. discriminate.
  - vm_compute. reflexivity.
  - vm_compute. reflexivity.
  - reflexivity.
Defined.

Lemma first_match_decides_witness :
  exists before after,
    descendants (two_answers (lit "25083062"))
    = before
      ++ mkElement status_tag
           [(lit "dic", lit "25083062"); (lit "nespolehlivyPlatce", lit "ANO")] []
      :: after
    /\ forall el, In el before ->
                  ~ (tag el = status_tag
                     /\ dict_get (lit "dic") (attrib el) = Some (lit "25083062")).
Proof.
  apply (first_match_decides (two_answers (lit "25083062"))). reflexivity.
Defined.

(** With the two answers, the first decides the record. *)
Example scenario_two_answers :
  result_of (check_vat_reliability (answering (two_answers (lit "25083062")))
               (lit "CZ25083062"))
  = Returned (CheckResult (lit "success") (lit "false")
                (lit "VAT Tax payer status: Unreliable") true (lit "25083062")).
Proof. reflexivity. Qed.

Lemma error_status_not_parsed_witness :
  check_vat_reliability (failing 404) (lit "CZ25083062")
  = (Returned (CheckResult (lit "error") (lit "true")
                 (lit "Error: could not get response from VAT service") false
                 (normalize (lit "CZ25083062"))),
     [Posted SERVICE_URL (payload_of (lit "25083062")) request_headers 30;
      PrintedStderr (lit "Error contacting service: ") (HTTPError 404)]).
Proof.
  apply (error_status_not_parsed (failing 404) (lit "CZ25083062")
           (payload_of (lit "25083062")) {| status_code := 404; content := [] |}).
  - vm_compute. discriminate.
  - vm_compute. reflexivity.
  - reflexivity.
  - simpl. lia.
Defined.

Lemma other_status_parsed_witness :
  _call_service (failing 302) (lit "25083062")
  = (Returned (Some (mkElement (lit "html") [] [])),
     [Posted SERVICE_URL (payload_of (lit "25083062")) request_headers 30]).
Proof.
  apply (other_status_parsed (failing 302) (lit "25083062")
           (payload_of (lit "25083062")) {| status_code := 302; content := [] |}).
  - vm_compute. reflexivity.
  - reflexivity.
  - simpl. lia.
Defined.

Lemma _build_soap_envelope_injective_witness :
  normalize (lit "CZ25083062") = normalize (lit "250 830 62").
Proof.
  apply (_build_soap_envelope_injective
           (normalize (lit "CZ25083062")) (normalize (lit "250 830 62"))).
  vm_compute. reflexivity.
Defined.

Lemma main_prints_record_witness :
  exists s rv m a,
    CheckResult (lit "success") (lit "true") (lit "VAT Tax payer status: Reliable")
      true (lit "25083062")
    = CheckResult s rv m a (normalize (lit "CZ25083062"))
    /\ main registry (lit "CZ25083062")
       = (Returned tt,
          map Did (trace_of (check_vat_reliability registry (lit "CZ25083062")))
          ++ [PrintedStdout
                (lit "{" ++ dq ++ lit "status" ++ dq ++ lit ": " ++ json_string s
                 ++ lit ", " ++ dq ++ lit "reliable_vat_payer" ++ dq ++ lit ": "
                 ++ json_string rv
                 ++ lit ", " ++ dq ++ lit "message" ++ dq ++ lit ": " ++ json_string m
                 ++ lit ", " ++ dq ++ lit "auto_checked" ++ dq ++ lit ": "
                 ++ (if a then lit "true" else lit "false")
                 ++ lit ", " ++ dq ++ lit "vat_number_clean" ++ dq ++ lit ": "
                 ++ json_string (normalize (lit "CZ25083062"))
                 ++ lit "}")]).
Proof.
  apply (main_prints_record registry (lit "CZ25083062")).
  vm_compute. reflexivity.
Defined.

Lemma main_no_digit_witness :
  main unreachable (lit "CZ-")
  = (Returned tt,
     [PrintedStdout
        (lit "{" ++ dq ++ lit "status" ++ dq ++ lit ": " ++ dq ++ lit "error" ++ dq
         ++ lit ", " ++ dq ++ lit "reliable_vat_payer" ++ dq ++ lit ": "
         ++ dq ++ lit "true" ++ dq
         ++ lit ", " ++ dq ++ lit "message" ++ dq ++ lit ": "
         ++ dq ++ lit "Invalid VAT number - no digits found" ++ dq
         ++ lit ", " ++ dq ++ lit "auto_checked" ++ dq ++ lit ": false"
         ++ lit ", " ++ dq ++ lit "vat_number_clean" ++ dq ++ lit ": " ++ dq ++ dq
         ++ lit "}")]).
Proof.
  apply (main_no_digit unreachable (lit "CZ-")).
  intros c Hc. vm_compute in Hc.
  repeat (destruct Hc as [<-|Hc]; [reflexivity|]). destruct Hc.
Defined.

Lemma json_digits_verbatim_witness :
  json_string (normalize (lit "CZ 250-830-62"))
  = dq ++ List.filter ascii_digit (lit "CZ 250-830-62") ++ dq.
Proof.
  apply (json_digits_verbatim (lit "CZ 250-830-62")).
  intros c Hc. vm_compute in Hc.
  repeat (destruct Hc as [<-|Hc]; [reflexivity|]). destruct Hc.
Defined.

Lemma status_meaning_witness :
  (CheckResult (lit "not_found") (lit "NA") (lit "VAT payer not found in registry")
     true (lit "00000019") !! "status" = Some (VStr (lit "success"))
   <-> normalize (lit "CZ00000019") <> []
       /\ exists root element,
           _call_service registry (normalize (lit "CZ00000019"))
           = (Returned (Some root),
              trace_of (check_vat_reliability registry (lit "CZ00000019")))
           /\ find_status root (normalize (lit "CZ00000019")) = Some element)
  /\ (CheckResult (lit "not_found") (lit "NA")
        (lit "VAT payer not found in registry") true (lit "00000019")
      !! "status" = Some (VStr (lit "not_found"))
      <-> normalize (lit "CZ00000019") <> []
          /\ exists root,
              _call_service registry (normalize (lit "CZ00000019"))
              = (Returned (Some root),
                 trace_of (check_vat_reliability registry (lit "CZ00000019")))
              /\ find_status root (normalize (lit "CZ00000019")) = None).
Proof.
  apply (status_meaning registry (lit "CZ00000019")).
  vm_compute. reflexivity.
Defined.

Lemma root_not_searched_witness :
  check_vat_reliability
    (answering (mkElement status_tag
                  [(lit "dic", lit "25083062"); (lit "nespolehlivyPlatce", lit "NE")] []))
    (lit "CZ25083062")
  = (Returned (CheckResult (lit "not_found") (lit "NA")
                 (lit "VAT payer not found in registry") true
                 (normalize (lit "CZ25083062"))),
     [Posted SERVICE_URL (payload_of (lit "25083062")) request_headers 30]).
Proof.
  apply (root_not_searched _ (lit "CZ25083062")
           (mkElement status_tag
              [(lit "dic", lit "25083062"); (lit "nespolehlivyPlatce", lit "NE")] [])).
  - vm_compute. discriminate.
  - vm_compute. reflexivity.
  - intros el [].
Defined.

End MoreScenarios.
